(** * xray-core [main/run.go]: the [run] command

    A shallow embedding of [main/run.go]: the configuration locator
    ([fileExists], [dirExists], [readConfDir], [getConfigFilePath],
    [getConfigFormat]), the bootstrapper ([startXray], [dumpConfig]), the
    sequential part of [executeRun], one iteration of its restart goroutine
    and the event loop of [startFileWatcher].

    The Go code works on package-level variables (the parsed flags), writes
    to the process log, calls into the operating system and into the engine
    ([core.LoadConfig], [core.New], [Server.Start], [Server.Close]) and may
    end the process ([os.Exit], [log.Fatalln]).  The embedding threads the
    package-level variables through a small monad that also records the
    effects in order and stops at a process exit; everything that the code
    only consults (file system, environment, engine) is a field of
    [World]. *)

From Stdlib Require Import String Ascii List ZArith Bool Lia.
Import ListNotations.
Open Scope string_scope.
Open Scope list_scope.

(** ** Data *)

(** Go [error] values.  [ExtError] is an error produced by a collaborator;
    [XrayError] is [errors.New(msg...).Base(base)] of [common/errors], whose
    operands are string literals or the rendering [a.String()] of a
    [cmdarg.Arg]. *)
Inductive Operand : Type :=
| OStr (s : string)
| OArgString (a : list string).

Inductive error : Type :=
| ExtError (msg : string)
| XrayError (msg : list Operand) (base : error).

(** A Go pair [(value, err)] with [err == nil] or not. *)
Inductive result (A : Type) : Type :=
| Ok (a : A)
| Err (e : error).
Arguments Ok {A} a.
Arguments Err {A} e.

(** What the code reads of an [os.FileInfo]. *)
Record FileInfo : Type := { IsDir : bool }.

(** Opaque values of the engine and of fsnotify. *)
Definition Config := nat.
Definition Server := nat.
Definition Watcher := nat.

(** [cmdarg.Arg] is [[]string]. *)
Definition Arg := list string.

(** Operands of a [log.Println] call. *)
Inductive LogArg : Type :=
| LStr (s : string)
| LErr (e : error)
| LCfg (c : string).

(** Observable effects, in program order. *)
Inductive Event : Type :=
| EvLog (args : list LogArg)
| EvPrintVersion
| EvSeverityLogger
| EvSleep
| EvGC
| EvGetMergedConfig (files : Arg)
| EvLoadConfig (fmt : string) (files : Arg)
| EvNew (c : Config)
| EvStart (s : Server) (r : option error)
| EvClose (s : Server) (r : option error)
| EvNewWatcher
| EvWatcherAdd (p : string) (r : option error)
| EvWatcherClose (wt : Watcher)
| EvRestart.

(** Everything the code consults but does not own. *)
Record World : Type := {
  os_Stat : string -> option FileInfo;
  os_ReadDir : string -> result (list string);
  os_Getwd : result string;
  platform_GetConfDirPath : string;
  platform_GetConfigurationPath : string;
  path_Join : string -> string -> string;
  filepath_Join : string -> string -> string;
  filepath_Abs : string -> result string;
  core_GetFormatByExtension : string -> string;
  core_LoadConfig : string -> Arg -> result Config;
  core_GetMergedConfig : Arg -> result string;
  core_New : Config -> result Server;
  server_Start : Server -> option error;
  server_Close : Server -> option error;
  fsnotify_NewWatcher : result Watcher;
  watcher_Add : string -> option error
}.

(** The package-level variables of [run.go]. *)
Record Globals : Type := {
  configFiles : Arg;
  configDir : string;
  dump : bool;
  test : bool;
  format : string
}.

Definition set_configFiles (fs : Arg) (g : Globals) : Globals :=
  {| configFiles := fs; configDir := configDir g; dump := dump g;
     test := test g; format := format g |}.

(** ** The effect monad *)

Inductive Outcome (A : Type) : Type :=
| Ret (a : A) (g : Globals)
| Exit (code : Z).
Arguments Ret {A} a g.
Arguments Exit {A} code.

Definition M (A : Type) : Type := Globals -> list Event * Outcome A.

Definition ret {A} (a : A) : M A := fun g => ([], Ret a g).

Definition bind {A B} (m : M A) (f : A -> M B) : M B :=
  fun g =>
    match m g with
    | (t, Ret a g') => (t ++ fst (f a g'), snd (f a g'))
    | (t, Exit c) => (t, Exit c)
    end.

Notation "x <- c ;; k" := (bind c (fun x => k))
  (at level 61, c at next level, right associativity).
Notation "c ;; k" := (bind c (fun _ => k))
  (at level 61, right associativity).

Definition emit (e : Event) : M unit := fun g => ([e], Ret tt g).
Definition get : M Globals := fun g => ([], Ret g g).
Definition put (g : Globals) : M unit := fun _ => ([], Ret tt g).
Definition os_Exit {A} (code : Z) : M A := fun _ => ([], Exit code).
Definition when (b : bool) (m : M unit) : M unit := if b then m else ret tt.

Definition log_Println (args : list LogArg) : M unit := emit (EvLog args).

Definition log_Print (args : list LogArg) : M unit := emit (EvLog args).

(** [log.Fatalln] is [Println] followed by [os.Exit(1)]. *)
Definition log_Fatalln {A} (args : list LogArg) : M A :=
  log_Println args ;; os_Exit 1.

(** Modelled from the spec: [cmdarg.Arg.Set] lives in [common/cmdarg],
    outside [main/run.go]; the flag is "repeatable" and its values are
    "accumulated, in command-line order", so [Set] appends. *)
Definition configFiles_Set (value : string) : M unit :=
  g <- get ;; put (set_configFiles (configFiles g ++ [value]) g).

(** ** Regular expressions

    Enough of Go's [regexp] for [getRegepxByFormat]: matching by
    derivatives.  [AnyNoNL] is [.], which does not match a newline.  A Go
    pattern is matched on runes and a Rocq string is a sequence of bytes;
    every byte of a multi-byte rune is above 127, so [.+] on bytes accepts
    the same strings. *)
Inductive re : Type :=
| Void
| Eps
| Chr (c : ascii)
| AnyNoNL
| Cat (r s : re)
| Alt (r s : re)
| Plus (r : re).

Fixpoint nullable (r : re) : bool :=
  match r with
  | Void => false
  | Eps => true
  | Chr _ => false
  | AnyNoNL => false
  | Cat r s => nullable r && nullable s
  | Alt r s => nullable r || nullable s
  | Plus r => nullable r
  end.

Definition newline : ascii := "010"%char.

Fixpoint deriv (c : ascii) (r : re) : re :=
  match r with
  | Void => Void
  | Eps => Void
  | Chr d => if Ascii.eqb c d then Eps else Void
  | AnyNoNL => if Ascii.eqb c newline then Void else Eps
  | Cat r s =>
      if nullable r then Alt (Cat (deriv c r) s) (deriv c s)
      else Cat (deriv c r) s
  | Alt r s => Alt (deriv c r) (deriv c s)
  | Plus r => Cat (deriv c r) (Alt Eps (Plus r))
  end.

Fixpoint re_match (r : re) (s : string) : bool :=
  match s with
  | EmptyString => nullable r
  | String c s' => re_match (deriv c r) s'
  end.

Fixpoint Lit (s : string) : re :=
  match s with
  | EmptyString => Eps
  | String c s' => Cat (Chr c) (Lit s')
  end.

(** [^.+\.(json|jsonc)$] *)
Definition getRegepxByFormat : re :=
  Cat (Plus AnyNoNL) (Cat (Chr ".") (Alt (Lit "json") (Lit "jsonc"))).

(** [regexp.MatchString(getRegepxByFormat(), name)]; the pattern is a
    constant that compiles, so the returned error is always nil. *)
Definition regexp_MatchString (name : string) : bool :=
  re_match getRegepxByFormat name.

(** ** ConfigLocator *)

Definition fileExists (w : World) (file : string) : bool :=
  match os_Stat w file with
  | Some info => negb (IsDir info)
  | None => false
  end.

Definition dirExists (w : World) (file : string) : bool :=
  if String.eqb file "" then false
  else match os_Stat w file with
       | Some info => IsDir info
       | None => false
       end.

Fixpoint readConfDir_range (w : World) (dirPath : string)
    (confs : list string) : M unit :=
  match confs with
  | [] => ret tt
  | f :: rest =>
      when (regexp_MatchString f)
           (configFiles_Set (path_Join w dirPath f)) ;;
      readConfDir_range w dirPath rest
  end.

Definition readConfDir (w : World) (dirPath : string) : M unit :=
  match os_ReadDir w dirPath with
  | Err e => log_Fatalln [LErr e]
  | Ok confs => readConfDir_range w dirPath confs
  end.

Definition stdin_sentinel : string := "stdin:".

Definition getConfigFilePath (w : World) (verbose : bool) : M Arg :=
  g <- get ;;
  (if dirExists w (configDir g) then
     when verbose
          (log_Println [LStr "Using confdir from arg:"; LStr (configDir g)]) ;;
     readConfDir w (configDir g)
   else if dirExists w (platform_GetConfDirPath w) then
     when verbose
          (log_Println [LStr "Using confdir from env:";
                        LStr (platform_GetConfDirPath w)]) ;;
     readConfDir w (platform_GetConfDirPath w)
   else ret tt) ;;
  g' <- get ;;
  if (0 <? length (configFiles g'))%nat then ret (configFiles g')
  else
    found <-
      match os_Getwd w with
      | Ok workingDir =>
          log_Println [LStr "workingDir: "; LStr workingDir] ;;
          let configFile := filepath_Join w workingDir "config.json" in
          if fileExists w configFile then
            when verbose
                 (log_Println [LStr "Using default config: "; LStr configFile]) ;;
            ret (Some [configFile])
          else ret None
      | Err _ => ret None
      end ;;
    match found with
    | Some r => ret r
    | None =>
        let configFile := platform_GetConfigurationPath w in
        if fileExists w configFile then
          when verbose
               (log_Println [LStr "Using config from env: "; LStr configFile]) ;;
          ret [configFile]
        else
          when verbose (log_Println [LStr "Using config from STDIN"]) ;;
          ret [stdin_sentinel]
    end.

Definition getConfigFormat (w : World) : M string :=
  g <- get ;;
  let f := core_GetFormatByExtension w (format g) in
  if String.eqb f "" then ret "auto" else ret f.

(** ** Bootstrapper *)

Definition startXray (w : World) : M (result Server) :=
  configFiles <- getConfigFilePath w true ;;
  fmt <- getConfigFormat w ;;
  emit (EvLoadConfig fmt configFiles) ;;
  match core_LoadConfig w fmt configFiles with
  | Err err =>
      ret (Err (XrayError [OStr "failed to load config files: [";
                           OArgString configFiles; OStr "]"] err))
  | Ok c =>
      emit (EvNew c) ;;
      match core_New w c with
      | Err err => ret (Err (XrayError [OStr "failed to create server"] err))
      | Ok server => ret (Ok server)
      end
  end.

Definition dumpConfig (w : World) : M Z :=
  files <- getConfigFilePath w false ;;
  emit (EvGetMergedConfig files) ;;
  match core_GetMergedConfig w files with
  | Err err => log_Println [LErr err] ;; emit EvSleep ;; ret 23%Z
  | Ok config => log_Print [LCfg config] ;; ret 0%Z
  end.

(** ** ConfigWatcher *)

Fixpoint startFileWatcher_range (w : World) (configFiles : Arg) : M unit :=
  match configFiles with
  | [] => ret tt
  | file :: rest =>
      (if negb (String.eqb file "stdin:") then
         match filepath_Abs w file with
         | Err err =>
             log_Println [LStr "Error getting absolute path for"; LStr file;
                          LStr ":"; LErr err]
         | Ok absPath =>
             emit (EvWatcherAdd absPath (watcher_Add w absPath)) ;;
             match watcher_Add w absPath with
             | Some err =>
                 log_Println [LStr "Error watching"; LStr absPath;
                              LStr ":"; LErr err]
             | None => log_Println [LStr "Watching config file:"; LStr absPath]
             end
         end
       else ret tt) ;;
      startFileWatcher_range w rest
  end.

(** The part of [startFileWatcher] that runs before it returns; the
    goroutine it launches is [watcherLoop]. *)
Definition startFileWatcher (w : World) (configFiles : Arg)
    : M (result Watcher) :=
  emit EvNewWatcher ;;
  match fsnotify_NewWatcher w with
  | Err err => ret (Err err)
  | Ok watcher => startFileWatcher_range w configFiles ;; ret (Ok watcher)
  end.

(** [fsnotify.Op] is a bit set. *)
Definition fsnotify_Create : Z := Z.shiftl 1 0.
Definition fsnotify_Write : Z := Z.shiftl 1 1.
Definition fsnotify_Remove : Z := Z.shiftl 1 2.
Definition fsnotify_Rename : Z := Z.shiftl 1 3.
Definition fsnotify_Chmod : Z := Z.shiftl 1 4.

Record fsnotify_Event : Type := { Name : string; Op : Z }.

(** What one [select] of the watcher goroutine can receive: a value or the
    closing of either channel. *)
Inductive Received : Type :=
| RecvEvent (event : fsnotify_Event)
| RecvEventsClosed
| RecvError (err : error)
| RecvErrorsClosed.

(** [event.Op&(fsnotify.Write|fsnotify.Create) != 0] *)
Definition writeOrCreate (event : fsnotify_Event) : bool :=
  negb (Z.land (Op event) (Z.lor fsnotify_Write fsnotify_Create) =? 0)%Z.

(** The body of the [case event, ok := <-watcher.Events] branch when
    [ok]. *)
Definition onEvent (event : fsnotify_Event) : list Event :=
  if writeOrCreate event
  then [EvLog [LStr "Config file changed:"; LStr (Name event)]; EvRestart]
  else [].

(** The goroutine of [startFileWatcher], run on what its [select]
    receives, in order; it returns when a channel is closed and waits when
    nothing more arrives. *)
Fixpoint watcherLoop (inbox : list Received) : list Event :=
  match inbox with
  | [] => []
  | RecvEvent event :: rest => onEvent event ++ watcherLoop rest
  | RecvEventsClosed :: _ => []
  | RecvError err :: rest =>
      EvLog [LStr "File watcher error:"; LErr err] :: watcherLoop rest
  | RecvErrorsClosed :: _ => []
  end.

(** ** ServiceSupervisor *)

(** The variables of [executeRun] that live as long as the process. *)
Record SupervisorState : Type := {
  server : Server;
  watcher : option Watcher
}.

(** [executeRun] up to the launch of the restart goroutine. *)
Definition executeRun (w : World) : M SupervisorState :=
  g <- get ;;
  (if dump g then
     emit EvSeverityLogger ;;
     errCode <- dumpConfig w ;;
     os_Exit errCode
   else ret tt) ;;
  emit EvPrintVersion ;;
  started <- startXray w ;;
  match started with
  | Err err => log_Println [LStr "Failed to start:"; LErr err] ;; os_Exit 23
  | Ok srv =>
      (if test g then log_Println [LStr "Configuration OK."] ;; os_Exit 0
       else ret tt) ;;
      emit (EvStart srv (server_Start w srv)) ;;
      match server_Start w srv with
      | Some err =>
          log_Println [LStr "Failed to start:"; LErr err] ;; os_Exit (-1)
      | None =>
          emit EvGC ;;
          configFiles <- getConfigFilePath w true ;;
          watching <- startFileWatcher w configFiles ;;
          wt <- match watching with
                | Err err =>
                    log_Println [LStr "Warning: Failed to start file watcher:";
                                 LErr err] ;;
                    log_Println [LStr "Config file changes will not trigger automatic restart"] ;;
                    ret None
                | Ok wt => ret (Some wt)
                end ;;
          log_Println [LStr "Xray started successfully. Press Ctrl+C to stop."] ;;
          ret {| server := srv; watcher := wt |}
      end
  end.

(** One iteration of the restart goroutine: what it does on one value
    received from [restartChan]. *)
Definition restart (w : World) (st : SupervisorState) : M SupervisorState :=
  log_Println [LStr "[Auto Restart] Restarting Xray due to config change..."] ;;
  emit (EvClose (server st) (server_Close w (server st))) ;;
  match server_Close w (server st) with
  | Some err => log_Println [LStr "[Auto Restart] Error closing server:"; LErr err]
  | None => ret tt
  end ;;
  built <- startXray w ;;
  match built with
  | Err err =>
      log_Println [LStr "[Auto Restart] Failed to load new config:"; LErr err] ;;
      log_Println [LStr "[Auto Restart] Keeping current server running"] ;;
      ret st
  | Ok newServer =>
      emit (EvStart newServer (server_Start w newServer)) ;;
      match server_Start w newServer with
      | Some err =>
          log_Println [LStr "[Auto Restart] Failed to start new server:"; LErr err] ;;
          log_Println [LStr "[Auto Restart] Keeping current server running"] ;;
          ret st
      | None =>
          log_Println [LStr "[Auto Restart] Xray restarted successfully with new config"] ;;
          ret {| server := newServer; watcher := watcher st |}
      end
  end.

(** The restart goroutine on a sequence of signals; the environment may
    have changed between two of them, so each comes with its world. *)
Fixpoint restartLoop (signals : list World) (st : SupervisorState)
    : M SupervisorState :=
  match signals with
  | [] => ret st
  | w :: rest => st' <- restart w st ;; restartLoop rest st'
  end.


(** ** Concrete environments

    [world_conf]: the working directory ["/work"] holds a directory
    ["conf"] with five entries and a file ["x.json"]; the engine accepts
    every configuration.  The variants change one collaborator each. *)

Definition slash_join (d f : string) : string := (d ++ "/" ++ f)%string.

Definition stat_conf (p : string) : option FileInfo :=
  if String.eqb p "conf" then Some {| IsDir := true |}
  else if String.eqb p "x.json" then Some {| IsDir := false |}
  else None.

Definition readDir_conf (p : string) : result (list string) :=
  if String.eqb p "conf"
  then Ok ["a.json"; "b.txt"; "c.jsonc"; ".json"; "d.JSON"]
  else Err (ExtError "no such file or directory").

Definition mkWorld (stat : string -> option FileInfo)
    (readDir : string -> result (list string))
    (load : string -> Arg -> result Config)
    (new : Config -> result Server)
    (start : Server -> option error) : World :=
  {| os_Stat := stat;
     os_ReadDir := readDir;
     os_Getwd := Ok "/work";
     platform_GetConfDirPath := "";
     platform_GetConfigurationPath := "/usr/local/etc/xray/config.json";
     path_Join := slash_join;
     filepath_Join := slash_join;
     filepath_Abs := fun p => Ok (slash_join "/work" p);
     core_GetFormatByExtension :=
       fun e => if String.eqb e "json" then "json" else "";
     core_LoadConfig := load;
     core_GetMergedConfig := fun _ => Ok "{}";
     core_New := new;
     server_Start := start;
     server_Close := fun _ => None;
     fsnotify_NewWatcher := Ok 0;
     watcher_Add := fun _ => None |}.

Definition world_conf : World :=
  mkWorld stat_conf readDir_conf (fun _ _ => Ok 0) (fun _ => Ok 1)
          (fun _ => None).

(** No directory, no file: nothing exists. *)
Definition world_empty : World :=
  mkWorld (fun _ => None) (fun _ => Err (ExtError "no such file or directory"))
          (fun _ _ => Ok 0) (fun _ => Ok 1) (fun _ => None).

(** ["conf"] exists and cannot be listed. *)
Definition world_unreadable : World :=
  mkWorld stat_conf (fun _ => Err (ExtError "permission denied"))
          (fun _ _ => Ok 0) (fun _ => Ok 1) (fun _ => None).

(** The loader rejects the configuration. *)
Definition world_bad_config : World :=
  mkWorld stat_conf readDir_conf
          (fun _ _ => Err (ExtError "invalid character")) (fun _ => Ok 1)
          (fun _ => None).

(** The configuration loads and the engine cannot be built from it. *)
Definition world_bad_build : World :=
  mkWorld stat_conf readDir_conf (fun _ _ => Ok 0)
          (fun _ => Err (ExtError "unknown protocol")) (fun _ => None).

(** The engine is built and does not start. *)
Definition world_bad_start : World :=
  mkWorld stat_conf readDir_conf (fun _ _ => Ok 0) (fun _ => Ok 1)
          (fun _ => Some (ExtError "address already in use")).

(** ["/work/config.json"] is a directory. *)
Definition world_config_json_dir : World :=
  mkWorld (fun p => if String.eqb p "/work/config.json"
                    then Some {| IsDir := true |} else None)
          (fun _ => Err (ExtError "no such file or directory"))
          (fun _ _ => Ok 0) (fun _ => Ok 1) (fun _ => None).

(** [xray run -c x.json -confdir conf] *)
Definition flags_both : Globals :=
  {| configFiles := ["x.json"]; configDir := "conf"; dump := false;
     test := false; format := "auto" |}.

(** [xray run -confdir conf] *)
Definition flags_confdir : Globals :=
  {| configFiles := []; configDir := "conf"; dump := false;
     test := false; format := "auto" |}.

(** [xray run -c x.json] *)
Definition flags_file : Globals :=
  {| configFiles := ["x.json"]; configDir := ""; dump := false;
     test := false; format := "auto" |}.

(** [xray run] *)
Definition flags_none : Globals :=
  {| configFiles := []; configDir := ""; dump := false;
     test := false; format := "auto" |}.

(** ** Specification-level views of the locator *)

(** The entries a scan of [dirPath] contributes, given its listing. *)
Definition matchingEntries (w : World) (dirPath : string)
    (confs : list string) : Arg :=
  map (path_Join w dirPath) (filter regexp_MatchString confs).

(** The directory the first two rules settle on, if any. *)
Definition resolvedDir (w : World) (g : Globals) : option string :=
  if dirExists w (configDir g) then Some (configDir g)
  else if dirExists w (platform_GetConfDirPath w)
       then Some (platform_GetConfDirPath w)
       else None.

(** What one call adds to [configFiles]. *)
Definition scanned (w : World) (g : Globals) : Arg :=
  match resolvedDir w g with
  | Some d =>
      match os_ReadDir w d with
      | Ok confs => matchingEntries w d confs
      | Err _ => []
      end
  | None => []
  end.

(** The first two rules: the scan leaves its entries in [configFiles], or
    the listing fails and the process ends there. *)
Definition scanStep (w : World) (verbose : bool) (g : Globals) : M unit :=
  if dirExists w (configDir g) then
    when verbose
         (log_Println [LStr "Using confdir from arg:"; LStr (configDir g)]) ;;
    readConfDir w (configDir g)
  else if dirExists w (platform_GetConfDirPath w) then
    when verbose
         (log_Println [LStr "Using confdir from env:";
                       LStr (platform_GetConfDirPath w)]) ;;
    readConfDir w (platform_GetConfDirPath w)
  else ret tt.

(** Rules 3 to 6: what is returned once the scan is done. *)
Definition pickSource (w : World) (verbose : bool) : M Arg :=
  g' <- get ;;
  if (0 <? length (configFiles g'))%nat then ret (configFiles g')
  else
    found <-
      match os_Getwd w with
      | Ok workingDir =>
          log_Println [LStr "workingDir: "; LStr workingDir] ;;
          let configFile := filepath_Join w workingDir "config.json" in
          if fileExists w configFile then
            when verbose
                 (log_Println [LStr "Using default config: "; LStr configFile]) ;;
            ret (Some [configFile])
          else ret None
      | Err _ => ret None
      end ;;
    match found with
    | Some r => ret r
    | None =>
        let configFile := platform_GetConfigurationPath w in
        if fileExists w configFile then
          when verbose
               (log_Println [LStr "Using config from env: "; LStr configFile]) ;;
          ret [configFile]
        else
          when verbose (log_Println [LStr "Using config from STDIN"]) ;;
          ret [stdin_sentinel]
    end.

(** Rules 5 and 6. *)
Definition envOrStdin (w : World) : Arg :=
  if fileExists w (platform_GetConfigurationPath w)
  then [platform_GetConfigurationPath w]
  else [stdin_sentinel].

(** Rules 4 to 6. *)
Definition defaultSource (w : World) : Arg :=
  match os_Getwd w with
  | Ok workingDir =>
      if fileExists w (filepath_Join w workingDir "config.json")
      then [filepath_Join w workingDir "config.json"]
      else envOrStdin w
  | Err _ => envOrStdin w
  end.

(** ** Specification-level views of the bootstrapper *)

(** The value [getConfigFormat] returns. *)
Definition formatHint (w : World) (g : Globals) : string :=
  if String.eqb (core_GetFormatByExtension w (format g)) "" then "auto"
  else core_GetFormatByExtension w (format g).

(** What [startXray] returns for a resolved source. *)
Definition built (w : World) (fmt : string) (files : Arg) : result Server :=
  match core_LoadConfig w fmt files with
  | Err err =>
      Err (XrayError [OStr "failed to load config files: [";
                      OArgString files; OStr "]"] err)
  | Ok c =>
      match core_New w c with
      | Err err => Err (XrayError [OStr "failed to create server"] err)
      | Ok srv => Ok srv
      end
  end.

(** The engine calls [startXray] makes for a resolved source. *)
Definition buildCalls (w : World) (fmt : string) (files : Arg) : list Event :=
  EvLoadConfig fmt files ::
  match core_LoadConfig w fmt files with
  | Err _ => []
  | Ok c => [EvNew c]
  end.

(** ** Specification-level views of the supervisor *)

Definition isLog (e : Event) : bool :=
  match e with
  | EvLog _ => true
  | _ => false
  end.

(** The handles that are running after the effects [t], from the handles
    [active] that were running before: a handle runs from a [Start] that
    returned no error until [Close] is called on it. *)
Fixpoint running (t : list Event) (active : list Server) : list Server :=
  match t with
  | [] => active
  | EvStart s None :: t' => running t' (s :: active)
  | EvClose s _ :: t' =>
      running t' (filter (fun x => negb (Nat.eqb x s)) active)
  | _ :: t' => running t' active
  end.

(** What [restart] prints after closing the old handle. *)
Definition closeLog (r : option error) : list Event :=
  match r with
  | Some err => [EvLog [LStr "[Auto Restart] Error closing server:"; LErr err]]
  | None => []
  end.

(** The end of an iteration of [restart] once the source is resolved: the
    effects after the engine calls, and the state the iteration leaves. *)
Definition swapEnd (w : World) (st : SupervisorState) (fmt : string)
    (files : Arg) : list Event * SupervisorState :=
  match built w fmt files with
  | Err err =>
      ([EvLog [LStr "[Auto Restart] Failed to load new config:"; LErr err];
        EvLog [LStr "[Auto Restart] Keeping current server running"]], st)
  | Ok newServer =>
      match server_Start w newServer with
      | Some err =>
          ([EvStart newServer (Some err);
            EvLog [LStr "[Auto Restart] Failed to start new server:"; LErr err];
            EvLog [LStr "[Auto Restart] Keeping current server running"]], st)
      | None =>
          ([EvStart newServer None;
            EvLog [LStr "[Auto Restart] Xray restarted successfully with new config"]],
           {| server := newServer; watcher := watcher st |})
      end
  end.

(** A swap that fails: the new handle is not built, or it is built and does
    not start. *)
Definition swapFails (w : World) (fmt : string) (files : Arg) : Prop :=
  match built w fmt files with
  | Err _ => True
  | Ok newServer => server_Start w newServer <> None
  end.

(** A swap that succeeds with the handle [newServer]. *)
Definition swapSucceeds (w : World) (fmt : string) (files : Arg)
    (newServer : Server) : Prop :=
  built w fmt files = Ok newServer /\ server_Start w newServer = None.

(** The engine builds the handle 2. *)
Definition world_next : World :=
  mkWorld stat_conf readDir_conf (fun _ _ => Ok 0) (fun _ => Ok 2)
          (fun _ => None).

(** ** Specification-level views of the watcher *)

(** [op] includes [flag]. *)
Definition includes (op flag : Z) : bool := negb (Z.land op flag =? 0)%Z.

(** Number of values sent on [restartChan]. *)
Fixpoint restarts (t : list Event) : nat :=
  match t with
  | [] => 0
  | EvRestart :: t' => S (restarts t')
  | _ :: t' => restarts t'
  end.

(** The events the loop takes from [watcher.Events] before it returns. *)
Fixpoint received (inbox : list Received) : list fsnotify_Event :=
  match inbox with
  | [] => []
  | RecvEvent event :: rest => event :: received rest
  | RecvEventsClosed :: _ => []
  | RecvError _ :: rest => received rest
  | RecvErrorsClosed :: _ => []
  end.

(** ** The language of a pattern *)

(** The strings a pattern accepts. *)
Inductive matches : re -> string -> Prop :=
| MEps : matches Eps ""
| MChr (c : ascii) : matches (Chr c) (String c "")
| MAny (c : ascii) : c <> newline -> matches AnyNoNL (String c "")
| MCat (r s : re) (x y : string) :
    matches r x -> matches s y -> matches (Cat r s) (x ++ y)%string
| MAltL (r s : re) (x : string) : matches r x -> matches (Alt r s) x
| MAltR (r s : re) (x : string) : matches s x -> matches (Alt r s) x
| MPlusOne (r : re) (x : string) : matches r x -> matches (Plus r) x
| MPlusMore (r : re) (x y : string) :
    matches r x -> matches (Plus r) y -> matches (Plus r) (x ++ y)%string.

(** No byte of the string is a newline. *)
Fixpoint noNewline (s : string) : bool :=
  match s with
  | EmptyString => true
  | String c s' => negb (Ascii.eqb c newline) && noNewline s'
  end.

(** ** More environments *)

(** As [world_conf], with the environment pointing at the directory
    ["/etc/xray"], which holds one configuration file. *)
Definition world_env : World :=
  {| os_Stat := fun p => if String.eqb p "/etc/xray"
                         then Some {| IsDir := true |} else stat_conf p;
     os_ReadDir := fun p => if String.eqb p "/etc/xray"
                            then Ok ["base.json"; "README"]
                            else readDir_conf p;
     os_Getwd := Ok "/work";
     platform_GetConfDirPath := "/etc/xray";
     platform_GetConfigurationPath := "/usr/local/etc/xray/config.json";
     path_Join := slash_join;
     filepath_Join := slash_join;
     filepath_Abs := fun p => Ok (slash_join "/work" p);
     core_GetFormatByExtension :=
       fun e => if String.eqb e "json" then "json" else "";
     core_LoadConfig := fun _ _ => Ok 0;
     core_GetMergedConfig := fun _ => Ok "{}";
     core_New := fun _ => Ok 1;
     server_Start := fun _ => None;
     server_Close := fun _ => None;
     fsnotify_NewWatcher := Ok 0;
     watcher_Add := fun _ => None |}.

(** ["conf"] exists and holds nothing that matches. *)
Definition world_no_match : World :=
  mkWorld stat_conf (fun _ => Ok ["README"; "notes.txt"])
          (fun _ _ => Ok 0) (fun _ => Ok 1) (fun _ => None).

(** ["/work/config.json"] and the environment-default file both exist. *)
Definition world_defaults : World :=
  mkWorld (fun p => if String.eqb p "/work/config.json"
                    then Some {| IsDir := false |}
                    else if String.eqb p "/usr/local/etc/xray/config.json"
                         then Some {| IsDir := false |} else None)
          (fun _ => Err (ExtError "no such file or directory"))
          (fun _ _ => Ok 0) (fun _ => Ok 1) (fun _ => None).

(** Only the environment-default file exists. *)
Definition world_env_file : World :=
  mkWorld (fun p => if String.eqb p "/usr/local/etc/xray/config.json"
                    then Some {| IsDir := false |} else None)
          (fun _ => Err (ExtError "no such file or directory"))
          (fun _ _ => Ok 0) (fun _ => Ok 1) (fun _ => None).

(** [xray run -dump -test -c x.json] *)
Definition flags_dump : Globals :=
  {| configFiles := ["x.json"]; configDir := ""; dump := true;
     test := true; format := "auto" |}.

(** [xray run -test -c x.json] *)
Definition flags_test : Globals :=
  {| configFiles := ["x.json"]; configDir := ""; dump := false;
     test := true; format := "auto" |}.

(** ** More views of the effects *)

(** The effects that change which handles run. *)
Definition touchesServer (e : Event) : bool :=
  match e with
  | EvStart _ _ => true
  | EvClose _ _ => true
  | _ => false
  end.

(** A sequence of effects that leaves the handles alone. *)
Definition inert (t : list Event) : bool :=
  forallb (fun e => negb (touchesServer e)) t.

(** The paths handed to [watcher.Add], in order. *)
Fixpoint adds (t : list Event) : list string :=
  match t with
  | [] => []
  | EvWatcherAdd p _ :: t' => p :: adds t'
  | _ :: t' => adds t'
  end.

(** Neither channel of the watcher is closed in the inbox. *)
Fixpoint stillOpen (inbox : list Received) : bool :=
  match inbox with
  | [] => true
  | RecvEvent _ :: rest => stillOpen rest
  | RecvEventsClosed :: _ => false
  | RecvError _ :: rest => stillOpen rest
  | RecvErrorsClosed :: _ => false
  end.

(** The configuration cannot be merged. *)
Definition world_bad_merge : World :=
  {| os_Stat := stat_conf;
     os_ReadDir := readDir_conf;
     os_Getwd := Ok "/work";
     platform_GetConfDirPath := "";
     platform_GetConfigurationPath := "/usr/local/etc/xray/config.json";
     path_Join := slash_join;
     filepath_Join := slash_join;
     filepath_Abs := fun p => Ok (slash_join "/work" p);
     core_GetFormatByExtension :=
       fun e => if String.eqb e "json" then "json" else "";
     core_LoadConfig := fun _ _ => Ok 0;
     core_GetMergedConfig := fun _ => Err (ExtError "invalid character");
     core_New := fun _ => Ok 1;
     server_Start := fun _ => None;
     server_Close := fun _ => None;
     fsnotify_NewWatcher := Ok 0;
     watcher_Add := fun _ => None |}.

(** No watcher can be created, ["b.json"] has no absolute path and
    ["/work/c.json"] cannot be watched. *)
Definition world_watch_trouble : World :=
  {| os_Stat := stat_conf;
     os_ReadDir := readDir_conf;
     os_Getwd := Ok "/work";
     platform_GetConfDirPath := "";
     platform_GetConfigurationPath := "/usr/local/etc/xray/config.json";
     path_Join := slash_join;
     filepath_Join := slash_join;
     filepath_Abs := fun p => if String.eqb p "b.json"
                              then Err (ExtError "getwd failed")
                              else Ok (slash_join "/work" p);
     core_GetFormatByExtension :=
       fun e => if String.eqb e "json" then "json" else "";
     core_LoadConfig := fun _ _ => Ok 0;
     core_GetMergedConfig := fun _ => Ok "{}";
     core_New := fun _ => Ok 1;
     server_Start := fun _ => None;
     server_Close := fun _ => None;
     fsnotify_NewWatcher := Err (ExtError "too many open files");
     watcher_Add := fun p => if String.eqb p "/work/c.json"
                             then Some (ExtError "no such file or directory")
                             else None |}.

(** As [world_watch_trouble], with a watcher. *)
Definition world_watch_partial : World :=
  {| os_Stat := os_Stat world_watch_trouble;
     os_ReadDir := os_ReadDir world_watch_trouble;
     os_Getwd := os_Getwd world_watch_trouble;
     platform_GetConfDirPath := platform_GetConfDirPath world_watch_trouble;
     platform_GetConfigurationPath :=
       platform_GetConfigurationPath world_watch_trouble;
     path_Join := path_Join world_watch_trouble;
     filepath_Join := filepath_Join world_watch_trouble;
     filepath_Abs := filepath_Abs world_watch_trouble;
     core_GetFormatByExtension := core_GetFormatByExtension world_watch_trouble;
     core_LoadConfig := core_LoadConfig world_watch_trouble;
     core_GetMergedConfig := core_GetMergedConfig world_watch_trouble;
     core_New := core_New world_watch_trouble;
     server_Start := server_Start world_watch_trouble;
     server_Close := server_Close world_watch_trouble;
     fsnotify_NewWatcher := Ok 5;
     watcher_Add := watcher_Add world_watch_trouble |}.

(** ** The monad and the record of flags *)

Lemma set_configFiles_same (g : Globals) :
  set_configFiles (configFiles g) g = g.
Proof. destruct g; reflexivity. Qed.

Lemma set_configFiles_again (a b : Arg) (g : Globals) :
  set_configFiles b (set_configFiles a g) = set_configFiles b g.
Proof. reflexivity. Qed.

Lemma bind_Ret {A B} (m : M A) (f : A -> M B) (g g' : Globals)
    (t : list Event) (a : A) :
  m g = (t, Ret a g') ->
  bind m f g = (t ++ fst (f a g'), snd (f a g')).
Proof. intros H; unfold bind; rewrite H; reflexivity. Qed.

Lemma bind_Exit {A B} (m : M A) (f : A -> M B) (g : Globals)
    (t : list Event) (c : Z) :
  m g = (t, Exit c) -> bind m f g = (t, Exit c).
Proof. intros H; unfold bind; rewrite H; reflexivity. Qed.

(** ** ConfigLocator: the directory scan *)

Lemma readConfDir_range_spec (w : World) (dirPath : string)
    (confs : list string) (g : Globals) :
  readConfDir_range w dirPath confs g =
  ([], Ret tt (set_configFiles
                 (configFiles g ++ matchingEntries w dirPath confs) g)).
Proof.
  revert g; induction confs as [|f rest IH]; intros g.
  - cbn. rewrite app_nil_r, set_configFiles_same. reflexivity.
  - cbn [readConfDir_range]. unfold matchingEntries. cbn [filter].
    destruct (regexp_MatchString f).
    + erewrite bind_Ret by reflexivity. rewrite IH.
      cbn. rewrite <- app_assoc. reflexivity.
    + erewrite bind_Ret by reflexivity. rewrite IH. reflexivity.
Qed.

Lemma dirExists_empty (w : World) : dirExists w "" = false.
Proof. reflexivity. Qed.

Lemma scanStep_Ret (w : World) (verbose : bool) (g g1 : Globals)
    (t : list Event) (u : unit) :
  scanStep w verbose g g = (t, Ret u g1) ->
  g1 = set_configFiles (configFiles g ++ scanned w g) g.
Proof.
  unfold scanStep, scanned, resolvedDir, readConfDir.
  destruct (dirExists w (configDir g)).
  - destruct (os_ReadDir w (configDir g)) as [confs|e];
      destruct verbose; cbn; unfold bind; cbn;
      rewrite ?readConfDir_range_spec; cbn; intros H; inversion H; reflexivity.
  - destruct (dirExists w (platform_GetConfDirPath w)).
    + destruct (os_ReadDir w (platform_GetConfDirPath w)) as [confs|e];
        destruct verbose; cbn; unfold bind; cbn;
        rewrite ?readConfDir_range_spec; cbn; intros H; inversion H; reflexivity.
    + cbn. intros H; inversion H.
      rewrite app_nil_r, set_configFiles_same. reflexivity.
Qed.

Lemma getConfigFilePath_steps (w : World) (verbose : bool) (g : Globals) :
  getConfigFilePath w verbose g =
  (scanStep w verbose g ;; pickSource w verbose) g.
Proof.
  unfold getConfigFilePath. unfold bind at 1. cbn [get app].
  symmetry. apply surjective_pairing.
Qed.

Lemma pickSource_spec (w : World) (verbose : bool) (g : Globals) :
  exists t,
    pickSource w verbose g =
    (t, Ret (if (0 <? length (configFiles g))%nat then configFiles g
             else defaultSource w) g).
Proof.
  unfold pickSource, defaultSource, envOrStdin.
  unfold bind at 1. cbn [get].
  destruct (0 <? length (configFiles g))%nat; [eexists; reflexivity|].
  destruct (os_Getwd w) as [wd|e].
  - destruct (fileExists w (filepath_Join w wd "config.json"));
      destruct (fileExists w (platform_GetConfigurationPath w));
      destruct verbose; eexists; reflexivity.
  - destruct (fileExists w (platform_GetConfigurationPath w));
      destruct verbose; eexists; reflexivity.
Qed.

Lemma getConfigFilePath_Ret (w : World) (verbose : bool) (g g1 : Globals)
    (t : list Event) (r : Arg) :
  getConfigFilePath w verbose g = (t, Ret r g1) ->
  g1 = set_configFiles (configFiles g ++ scanned w g) g /\
  r = (if (0 <? length (configFiles g1))%nat then configFiles g1
       else defaultSource w).
Proof.
  rewrite getConfigFilePath_steps. unfold bind.
  destruct (scanStep w verbose g g) as [t0 [u g0|c]] eqn:Hs; [|discriminate].
  apply scanStep_Ret in Hs.
  destruct (pickSource_spec w verbose g0) as [t1 Hp]. rewrite Hp. cbn.
  intros H; inversion H; subst. split; reflexivity.
Qed.

(** When the scan adds nothing the flags are as before. *)
Lemma getConfigFilePath_scanned_nil (w : World) (verbose : bool)
    (g g1 : Globals) (t : list Event) (r : Arg) :
  scanned w g = [] ->
  getConfigFilePath w verbose g = (t, Ret r g1) -> g1 = g.
Proof.
  intros Hn H. apply getConfigFilePath_Ret in H. destruct H as [H _].
  rewrite Hn, app_nil_r, set_configFiles_same in H. exact H.
Qed.

(** A directory that exists and is listed: the call returns, with the
    accumulated list extended by the matching entries. *)
Lemma getConfigFilePath_listed (w : World) (verbose : bool) (g : Globals)
    (d : string) (confs : list string) :
  resolvedDir w g = Some d ->
  os_ReadDir w d = Ok confs ->
  exists t r,
    getConfigFilePath w verbose g =
    (t, Ret r (set_configFiles
                 (configFiles g ++ matchingEntries w d confs) g)).
Proof.
  intros Hd Hl. rewrite getConfigFilePath_steps.
  assert (Hs : exists t0, scanStep w verbose g g =
             (t0, Ret tt (set_configFiles
                            (configFiles g ++ matchingEntries w d confs) g))).
  { unfold scanStep, resolvedDir in *.
    destruct (dirExists w (configDir g)).
    - inversion Hd; subst d. unfold readConfDir. rewrite Hl.
      destruct verbose; cbn; unfold bind; cbn;
        rewrite ?readConfDir_range_spec; eexists; reflexivity.
    - destruct (dirExists w (platform_GetConfDirPath w)); [|discriminate].
      inversion Hd; subst d. unfold readConfDir. rewrite Hl.
      destruct verbose; cbn; unfold bind; cbn;
        rewrite ?readConfDir_range_spec; eexists; reflexivity. }
  destruct Hs as [t0 Hs].
  destruct (pickSource_spec w verbose
              (set_configFiles
                 (configFiles g ++ matchingEntries w d confs) g)) as [t1 Hp].
  erewrite bind_Ret by exact Hs. rewrite Hp. cbn [fst snd].
  eexists; eexists; reflexivity.
Qed.

(** A directory that exists and cannot be listed: the error is printed and
    the process ends with status 1. *)
Lemma getConfigFilePath_unlistable (w : World) (verbose : bool) (g : Globals)
    (d : string) (e : error) :
  resolvedDir w g = Some d ->
  os_ReadDir w d = Err e ->
  exists t, getConfigFilePath w verbose g = (t ++ [EvLog [LErr e]], Exit 1).
Proof.
  intros Hd Hl. rewrite getConfigFilePath_steps.
  unfold bind at 1. unfold scanStep, resolvedDir in *.
  destruct (dirExists w (configDir g)).
  - inversion Hd; subst d. unfold readConfDir. rewrite Hl.
    destruct verbose; cbn.
    + exists [EvLog [LStr "Using confdir from arg:"; LStr (configDir g)]].
      reflexivity.
    + exists []. reflexivity.
  - destruct (dirExists w (platform_GetConfDirPath w)); [|discriminate].
    inversion Hd; subst d. unfold readConfDir. rewrite Hl.
    destruct verbose; cbn.
    + exists [EvLog [LStr "Using confdir from env:";
                     LStr (platform_GetConfDirPath w)]].
      reflexivity.
    + exists []. reflexivity.
Qed.

(** No directory resolves: the flags are left alone and rules 3 to 6
    decide. *)
Lemma getConfigFilePath_no_dir (w : World) (verbose : bool) (g : Globals) :
  resolvedDir w g = None ->
  exists t,
    getConfigFilePath w verbose g =
    (t, Ret (if (0 <? length (configFiles g))%nat then configFiles g
             else defaultSource w) g).
Proof.
  intros Hd. rewrite getConfigFilePath_steps.
  assert (Hs : scanStep w verbose g g = ([], Ret tt g)).
  { unfold scanStep, resolvedDir in *.
    destruct (dirExists w (configDir g)); [discriminate|].
    destruct (dirExists w (platform_GetConfDirPath w)); [discriminate|].
    reflexivity. }
  destruct (pickSource_spec w verbose g) as [t Hp].
  erewrite bind_Ret by exact Hs. rewrite Hp. eexists; reflexivity.
Qed.

Lemma resolvedDir_none (w : World) (g : Globals) :
  configDir g = "" ->
  dirExists w (platform_GetConfDirPath w) = false ->
  resolvedDir w g = None.
Proof.
  intros Hc He. unfold resolvedDir. rewrite Hc, dirExists_empty, He.
  reflexivity.
Qed.

Lemma fileExists_true (w : World) (p : string) :
  fileExists w p = true ->
  exists info, os_Stat w p = Some info /\ IsDir info = false.
Proof.
  unfold fileExists. destruct (os_Stat w p) as [info|]; [|discriminate].
  intros H. exists info. split; [reflexivity|].
  destruct (IsDir info); [discriminate|reflexivity].
Qed.

(** The extension filter on a few names. *)
Example regexp_MatchString_samples :
  regexp_MatchString "a.json" = true /\
  regexp_MatchString "a.jsonc" = true /\
  regexp_MatchString "dir.d.json" = true /\
  regexp_MatchString ".json" = false /\
  regexp_MatchString "a.JSON" = false /\
  regexp_MatchString "a.json.bak" = false /\
  regexp_MatchString "ajson" = false /\
  regexp_MatchString (String newline "a.json") = false.
Proof. repeat split. Qed.

(** ** ConfigLocator: resolved sources *)

(** C2, as stated, fails: with [-c x.json -confdir conf] the resolved source
    is not the list of the directory's matching entries. *)
Lemma confdir_does_not_replace_explicit_files :
  ~ (forall (w : World) (verbose : bool) (g : Globals) (confs : list string),
        dirExists w (configDir g) = true ->
        configFiles g <> [] ->
        os_ReadDir w (configDir g) = Ok confs ->
        exists t g',
          getConfigFilePath w verbose g =
          (t, Ret (matchingEntries w (configDir g) confs) g')).
Proof.
  intros H.
  destruct (H world_conf false flags_both
              ["a.json"; "b.txt"; "c.jsonc"; ".json"; "d.JSON"])
    as (t & g' & E); [reflexivity | discriminate | reflexivity |].
  vm_compute in E. discriminate E.
Qed.

(** C2, amended: when both a listable [-confdir] directory and explicit
    [-c] files are given, the directory is scanned first and its matching
    entries, in listing order, are appended to the explicit files, in
    command-line order; the resolved source is that whole list, which is
    also what [configFiles] holds afterwards. *)
Theorem confdir_entries_follow_explicit_files
    (w : World) (verbose : bool) (g : Globals) (confs : list string) :
  dirExists w (configDir g) = true ->
  configFiles g <> [] ->
  os_ReadDir w (configDir g) = Ok confs ->
  exists t,
    getConfigFilePath w verbose g =
    (t, Ret (configFiles g ++ matchingEntries w (configDir g) confs)
            (set_configFiles
               (configFiles g ++ matchingEntries w (configDir g) confs) g)).
Proof.
  intros Hd Hne Hl.
  assert (Hr : resolvedDir w g = Some (configDir g))
    by (unfold resolvedDir; rewrite Hd; reflexivity).
  destruct (getConfigFilePath_listed w verbose g _ _ Hr Hl) as (t & r & E).
  exists t. rewrite E. f_equal. f_equal.
  apply getConfigFilePath_Ret in E. destruct E as [_ E]. rewrite E.
  cbn [configFiles set_configFiles].
  destruct (configFiles g) as [|f fs]; [contradiction|reflexivity].
Qed.

Lemma confdir_entries_follow_explicit_files_witness :
  exists t,
    getConfigFilePath world_conf true flags_both =
    (t, Ret ["x.json"; "conf/a.json"; "conf/c.jsonc"]
            (set_configFiles ["x.json"; "conf/a.json"; "conf/c.jsonc"]
                             flags_both)).
Proof.
  apply (confdir_entries_follow_explicit_files world_conf true flags_both
           ["a.json"; "b.txt"; "c.jsonc"; ".json"; "d.JSON"]).
  - reflexivity.
  - discriminate.
  - reflexivity.
Defined.

(** Source resolution is not idempotent: with [-confdir conf] the second
    call returns the entries of the directory twice. *)
Lemma getConfigFilePath_not_idempotent :
  ~ (forall (w : World) (verbose : bool) (g g1 : Globals)
            (t1 : list Event) (r1 : Arg),
        getConfigFilePath w verbose g = (t1, Ret r1 g1) ->
        exists t2 g2, getConfigFilePath w verbose g1 = (t2, Ret r1 g2)).
Proof.
  intros H.
  destruct (H world_conf false flags_confdir
              (set_configFiles ["conf/a.json"; "conf/c.jsonc"] flags_confdir)
              [] ["conf/a.json"; "conf/c.jsonc"] eq_refl)
    as (t2 & g2 & E).
  vm_compute in E. discriminate E.
Qed.

(** Where the directory scan adds no entry (no configuration directory
    exists, or the one that does holds no matching entry) a call leaves the
    flags as they were and a second call repeats the first. *)
Lemma getConfigFilePath_idempotent_without_scan
    (w : World) (verbose : bool) (g g1 : Globals)
    (t1 : list Event) (r1 : Arg) :
  scanned w g = [] ->
  getConfigFilePath w verbose g = (t1, Ret r1 g1) ->
  g1 = g /\ getConfigFilePath w verbose g1 = (t1, Ret r1 g1).
Proof.
  intros Hn H.
  pose proof (getConfigFilePath_scanned_nil w verbose g g1 t1 r1 Hn H) as E.
  subst g1. split; [reflexivity | exact H].
Qed.

Lemma getConfigFilePath_idempotent_without_scan_witness :
  flags_file = flags_file /\
  getConfigFilePath world_empty true flags_file =
  ([], Ret ["x.json"] flags_file).
Proof.
  apply (getConfigFilePath_idempotent_without_scan
           world_empty true flags_file flags_file [] ["x.json"]).
  - reflexivity.
  - reflexivity.
Defined.

(** C5, as stated, fails: when ["conf"] cannot be listed the call does not
    come back to its caller. *)
Lemma unlistable_dir_does_not_return :
  ~ (forall (w : World) (verbose : bool) (g : Globals) (d : string)
            (e : error),
        resolvedDir w g = Some d ->
        os_ReadDir w d = Err e ->
        exists t r g', getConfigFilePath w verbose g = (t, Ret r g')).
Proof.
  intros H.
  destruct (H world_unreadable false flags_confdir "conf"
              (ExtError "permission denied") eq_refl eq_refl)
    as (t & r & g' & E).
  vm_compute in E. discriminate E.
Qed.

(** C5, amended: if the configuration directory that resolves (from
    [-confdir] or the environment default) cannot be listed, source
    resolution prints the error and ends the process with status 1 inside
    the locator ([log.Fatalln]); nothing is returned to the caller. *)
Theorem unlistable_dir_is_fatal
    (w : World) (verbose : bool) (g : Globals) (d : string) (e : error) :
  resolvedDir w g = Some d ->
  os_ReadDir w d = Err e ->
  exists t, getConfigFilePath w verbose g = (t ++ [EvLog [LErr e]], Exit 1).
Proof. apply getConfigFilePath_unlistable. Qed.

Lemma unlistable_dir_is_fatal_witness :
  exists t,
    getConfigFilePath world_unreadable true flags_confdir =
    (t ++ [EvLog [LErr (ExtError "permission denied")]], Exit 1).
Proof.
  apply (unlistable_dir_is_fatal world_unreadable true flags_confdir "conf").
  - reflexivity.
  - reflexivity.
Defined.

(** C8: with no [-c] file and no [-confdir], no environment-default
    directory, no [config.json] file in the working directory and no file
    at the environment-default path, source resolution returns exactly the
    one-element source holding the standard-input sentinel. *)
Theorem getConfigFilePath_falls_back_to_stdin
    (w : World) (verbose : bool) (g : Globals) :
  configFiles g = [] ->
  configDir g = "" ->
  dirExists w (platform_GetConfDirPath w) = false ->
  (forall wd, os_Getwd w = Ok wd ->
              fileExists w (filepath_Join w wd "config.json") = false) ->
  fileExists w (platform_GetConfigurationPath w) = false ->
  exists t, getConfigFilePath w verbose g = (t, Ret [stdin_sentinel] g).
Proof.
  intros Hf Hc He Hwd Hp.
  destruct (getConfigFilePath_no_dir w verbose g (resolvedDir_none w g Hc He))
    as [t E].
  exists t. rewrite E, Hf. cbn. f_equal. f_equal.
  unfold defaultSource, envOrStdin. rewrite Hp.
  destruct (os_Getwd w) as [wd|e]; [|reflexivity].
  rewrite (Hwd wd eq_refl). reflexivity.
Qed.

Lemma getConfigFilePath_falls_back_to_stdin_witness :
  exists t,
    getConfigFilePath world_empty true flags_none = (t, Ret ["stdin:"] flags_none).
Proof.
  apply (getConfigFilePath_falls_back_to_stdin world_empty true flags_none).
  - reflexivity.
  - reflexivity.
  - reflexivity.
  - intros wd _. reflexivity.
  - reflexivity.
Defined.

(** C9: [fileExists] is false for every path whose stat reports a
    directory.  So, when rules 4 to 6 decide (no explicit file, no
    directory): a directory named [config.json] in the working directory is
    not used and resolution goes on with the environment-default path and
    then standard input; a directory at the environment-default path is not
    used either and resolution ends at standard input; and a path that is
    returned is one whose stat reports something that is not a
    directory. *)
Theorem fileExists_rejects_directories
    (w : World) (verbose : bool) (g : Globals) :
  configFiles g = [] ->
  resolvedDir w g = None ->
  (forall p info,
      os_Stat w p = Some info -> IsDir info = true -> fileExists w p = false) /\
  (forall wd info,
      os_Getwd w = Ok wd ->
      os_Stat w (filepath_Join w wd "config.json") = Some info ->
      IsDir info = true ->
      exists t, getConfigFilePath w verbose g = (t, Ret (envOrStdin w) g)) /\
  (forall info,
      (forall wd, os_Getwd w = Ok wd ->
                  fileExists w (filepath_Join w wd "config.json") = false) ->
      os_Stat w (platform_GetConfigurationPath w) = Some info ->
      IsDir info = true ->
      exists t, getConfigFilePath w verbose g = (t, Ret [stdin_sentinel] g)) /\
  (forall t r g1,
      getConfigFilePath w verbose g = (t, Ret r g1) ->
      r = [stdin_sentinel] \/
      exists p info, r = [p] /\ os_Stat w p = Some info /\ IsDir info = false).
Proof.
  intros Hc Hd.
  assert (Hdir : forall p info,
             os_Stat w p = Some info -> IsDir info = true ->
             fileExists w p = false).
  { intros p info Hs Hi. unfold fileExists. rewrite Hs, Hi. reflexivity. }
  destruct (getConfigFilePath_no_dir w verbose g Hd) as [t0 E].
  rewrite Hc in E. cbn [length Nat.ltb Nat.leb] in E.
  split; [exact Hdir|]. split; [|split].
  - intros wd info Hwd Hs Hi. exists t0. rewrite E. unfold defaultSource.
    rewrite Hwd, (Hdir _ _ Hs Hi). reflexivity.
  - intros info Hwd Hs Hi. exists t0. rewrite E. f_equal. f_equal.
    unfold defaultSource, envOrStdin. rewrite (Hdir _ _ Hs Hi).
    destruct (os_Getwd w) as [wd|e]; [|reflexivity].
    rewrite (Hwd wd eq_refl). reflexivity.
  - intros t r g1 H. rewrite E in H. inversion H; subst.
    unfold defaultSource, envOrStdin.
    destruct (os_Getwd w) as [wd|e].
    + destruct (fileExists w (filepath_Join w wd "config.json")) eqn:F1.
      * right. destruct (fileExists_true _ _ F1) as (info & Hs & Hi).
        exists (filepath_Join w wd "config.json"), info. auto.
      * destruct (fileExists w (platform_GetConfigurationPath w)) eqn:F2;
          [right|left; reflexivity].
        destruct (fileExists_true _ _ F2) as (info & Hs & Hi).
        exists (platform_GetConfigurationPath w), info. auto.
    + destruct (fileExists w (platform_GetConfigurationPath w)) eqn:F2;
        [right|left; reflexivity].
      destruct (fileExists_true _ _ F2) as (info & Hs & Hi).
      exists (platform_GetConfigurationPath w), info. auto.
Qed.

Lemma fileExists_rejects_directories_witness :
  fileExists world_config_json_dir "/work/config.json" = false /\
  exists t,
    getConfigFilePath world_config_json_dir true flags_none =
    (t, Ret ["stdin:"] flags_none).
Proof.
  destruct (fileExists_rejects_directories
              world_config_json_dir true flags_none eq_refl eq_refl)
    as (Hf & Hcwd & _).
  split.
  - apply (Hf "/work/config.json" {| IsDir := true |}); reflexivity.
  - apply (Hcwd "/work" {| IsDir := true |}); reflexivity.
Defined.

(** ** Bootstrapper *)

Lemma getConfigFormat_spec (w : World) (g : Globals) :
  getConfigFormat w g = ([], Ret (formatHint w g) g).
Proof.
  unfold getConfigFormat, formatHint, bind. cbn [get].
  destruct (String.eqb (core_GetFormatByExtension w (format g)) "");
    reflexivity.
Qed.

Lemma getConfigFilePath_keeps_flags (w : World) (verbose : bool)
    (g g1 : Globals) (t : list Event) (r : Arg) :
  getConfigFilePath w verbose g = (t, Ret r g1) ->
  configDir g1 = configDir g /\ dump g1 = dump g /\
  test g1 = test g /\ format g1 = format g.
Proof.
  intros H. apply getConfigFilePath_Ret in H. destruct H as [H _].
  subst g1. repeat split.
Qed.

Lemma startXray_Ret (w : World) (g g1 : Globals) (t : list Event)
    (files : Arg) :
  getConfigFilePath w true g = (t, Ret files g1) ->
  startXray w g =
  (t ++ buildCalls w (formatHint w g) files,
   Ret (built w (formatHint w g) files) g1).
Proof.
  intros H. unfold startXray.
  erewrite bind_Ret by exact H.
  erewrite bind_Ret by apply getConfigFormat_spec.
  assert (Hf : formatHint w g1 = formatHint w g).
  { unfold formatHint.
    destruct (getConfigFilePath_keeps_flags _ _ _ _ _ _ H) as (_ & _ & _ & E).
    rewrite E. reflexivity. }
  rewrite Hf. unfold buildCalls, built. cbn [fst snd app].
  unfold bind at 1 2. cbn [emit fst snd app].
  destruct (core_LoadConfig w (formatHint w g) files) as [c|e]; cbn.
  - destruct (core_New w c); reflexivity.
  - reflexivity.
Qed.

Lemma startXray_Exit (w : World) (g : Globals) (t : list Event) (c : Z) :
  getConfigFilePath w true g = (t, Exit c) ->
  startXray w g = (t, Exit c).
Proof. intros H. unfold startXray. apply bind_Exit. exact H. Qed.

(** C10: whatever the [-format] flag holds, [getConfigFormat] returns the
    value the extension lookup gives for it, or ["auto"] when the lookup
    gives the empty string; it never fails, and that value is the format
    [startXray] passes to [core.LoadConfig] with the resolved source. *)
Theorem getConfigFormat_defaults_to_auto (w : World) (g : Globals) :
  getConfigFormat w g =
  ([], Ret (if String.eqb (core_GetFormatByExtension w (format g)) ""
            then "auto"
            else core_GetFormatByExtension w (format g)) g) /\
  (forall t files g1,
      getConfigFilePath w true g = (t, Ret files g1) ->
      exists post,
        fst (startXray w g) =
        t ++ EvLoadConfig
               (if String.eqb (core_GetFormatByExtension w (format g)) ""
                then "auto"
                else core_GetFormatByExtension w (format g)) files :: post).
Proof.
  split.
  - apply getConfigFormat_spec.
  - intros t files g1 H. rewrite (startXray_Ret _ _ _ _ _ H).
    unfold buildCalls. eexists. reflexivity.
Qed.

Lemma getConfigFormat_defaults_to_auto_witness :
  getConfigFormat world_empty
    {| configFiles := ["x.json"]; configDir := ""; dump := false;
       test := false; format := "yamlx" |} =
  ([], Ret "auto"
         {| configFiles := ["x.json"]; configDir := ""; dump := false;
            test := false; format := "yamlx" |}) /\
  exists post,
    fst (startXray world_empty
           {| configFiles := ["x.json"]; configDir := ""; dump := false;
              test := false; format := "yamlx" |}) =
    [] ++ EvLoadConfig "auto" ["x.json"] :: post.
Proof.
  destruct (getConfigFormat_defaults_to_auto world_empty
              {| configFiles := ["x.json"]; configDir := ""; dump := false;
                 test := false; format := "yamlx" |}) as [Hf Hl].
  split; [exact Hf|].
  apply (Hl [] ["x.json"]
            {| configFiles := ["x.json"]; configDir := ""; dump := false;
               test := false; format := "yamlx" |}).
  reflexivity.
Defined.

(** ** Initial bootstrap: exit codes *)

Lemma executeRun_prefix (w : World) (g : Globals) :
  dump g = false ->
  executeRun w g =
  (emit EvPrintVersion ;;
   started <- startXray w ;;
   match started with
   | Err err => log_Println [LStr "Failed to start:"; LErr err] ;; os_Exit 23
   | Ok srv =>
       (if test g then log_Println [LStr "Configuration OK."] ;; os_Exit 0
        else ret tt) ;;
       emit (EvStart srv (server_Start w srv)) ;;
       match server_Start w srv with
       | Some err =>
           log_Println [LStr "Failed to start:"; LErr err] ;; os_Exit (-1)
       | None =>
           emit EvGC ;;
           configFiles <- getConfigFilePath w true ;;
           watching <- startFileWatcher w configFiles ;;
           wt <- match watching with
                 | Err err =>
                     log_Println [LStr "Warning: Failed to start file watcher:";
                                  LErr err] ;;
                     log_Println [LStr "Config file changes will not trigger automatic restart"] ;;
                     ret None
                 | Ok wt => ret (Some wt)
                 end ;;
           log_Println [LStr "Xray started successfully. Press Ctrl+C to stop."] ;;
           ret {| server := srv; watcher := wt |}
       end
   end) g.
Proof.
  intros Hd. unfold executeRun. unfold bind at 1. cbn [get app].
  rewrite Hd. unfold bind at 1. cbn [ret app].
  symmetry. apply surjective_pairing.
Qed.

(** A directory that cannot be listed ends the bootstrap with status 1. *)
Lemma executeRun_unlistable (w : World) (g : Globals) (d : string)
    (e : error) :
  dump g = false ->
  resolvedDir w g = Some d ->
  os_ReadDir w d = Err e ->
  snd (executeRun w g) = Exit 1.
Proof.
  intros Hd Hr Hl. rewrite (executeRun_prefix _ _ Hd).
  destruct (getConfigFilePath_unlistable w true g d e Hr Hl) as [t E].
  apply startXray_Exit in E.
  unfold bind at 1. cbn [emit]. erewrite bind_Exit by exact E. reflexivity.
Qed.

(** [startXray] returned an error: status 23. *)
Lemma executeRun_not_built (w : World) (g g1 : Globals) (t : list Event)
    (files : Arg) (err : error) :
  dump g = false ->
  getConfigFilePath w true g = (t, Ret files g1) ->
  built w (formatHint w g) files = Err err ->
  snd (executeRun w g) = Exit 23.
Proof.
  intros Hd H Hb. rewrite (executeRun_prefix _ _ Hd).
  apply startXray_Ret in H. rewrite Hb in H.
  unfold bind at 1. cbn [emit]. erewrite bind_Ret by exact H. reflexivity.
Qed.

(** [Start] returned an error: status -1. *)
Lemma executeRun_not_started (w : World) (g g1 : Globals) (t : list Event)
    (files : Arg) (srv : Server) (err : error) :
  dump g = false ->
  test g = false ->
  getConfigFilePath w true g = (t, Ret files g1) ->
  built w (formatHint w g) files = Ok srv ->
  server_Start w srv = Some err ->
  snd (executeRun w g) = Exit (-1).
Proof.
  intros Hd Ht H Hb Hs. rewrite (executeRun_prefix _ _ Hd).
  apply startXray_Ret in H. rewrite Hb in H.
  unfold bind at 1. cbn [emit]. erewrite bind_Ret by exact H.
  rewrite Ht. cbn [snd]. unfold bind at 1. cbn [ret].
  unfold bind at 1. cbn [emit]. rewrite Hs. reflexivity.
Qed.

(** C4, as stated, fails twice: a configuration directory that cannot be
    listed does not end the process with 23 (it ends with 1), and a server
    that cannot be built from a loaded configuration ends it with 23, the
    code of a configuration failure, not with a code of its own. *)
Lemma exit_codes_not_as_claimed :
  ~ (forall (w : World) (g : Globals) (d : string) (e : error),
        dump g = false ->
        resolvedDir w g = Some d ->
        os_ReadDir w d = Err e ->
        snd (executeRun w g) = Exit 23) /\
  ~ (forall (w : World) (g g1 : Globals) (t : list Event) (files : Arg)
            (c : Config) (e : error),
        dump g = false ->
        getConfigFilePath w true g = (t, Ret files g1) ->
        core_LoadConfig w (formatHint w g) files = Ok c ->
        core_New w c = Err e ->
        exists code,
          snd (executeRun w g) = Exit code /\ code <> 0%Z /\ code <> 23%Z).
Proof.
  split; intros H.
  - pose proof (H world_unreadable flags_confdir "conf"
                  (ExtError "permission denied") eq_refl eq_refl eq_refl) as E.
    vm_compute in E. discriminate E.
  - destruct (H world_bad_build flags_file flags_file [] ["x.json"] 0
                (ExtError "unknown protocol")
                eq_refl eq_refl eq_refl eq_refl) as (code & E & _ & N).
    vm_compute in E. inversion E. subst code. apply N. reflexivity.
Qed.

(** C4, amended: during the initial bootstrap (no [-dump]) every failure
    [startXray] reports, be it a configuration load or merge failure or a
    failure to build the Server, ends the process with exit code 23; a
    failure to start the Server (reached without [-test]) ends it with exit
    code -1, nonzero and different from 23; a configuration directory that
    cannot be listed ends it with exit code 1. *)
Theorem bootstrap_exit_codes (w : World) (g : Globals) :
  dump g = false ->
  (forall d e,
      resolvedDir w g = Some d -> os_ReadDir w d = Err e ->
      snd (executeRun w g) = Exit 1) /\
  (forall t files g1,
      getConfigFilePath w true g = (t, Ret files g1) ->
      (forall e,
          core_LoadConfig w (formatHint w g) files = Err e ->
          snd (executeRun w g) = Exit 23) /\
      (forall c e,
          core_LoadConfig w (formatHint w g) files = Ok c ->
          core_New w c = Err e ->
          snd (executeRun w g) = Exit 23) /\
      (forall c srv e,
          core_LoadConfig w (formatHint w g) files = Ok c ->
          core_New w c = Ok srv ->
          test g = false ->
          server_Start w srv = Some e ->
          snd (executeRun w g) = Exit (-1) /\ (-1 <> 0)%Z /\ (-1 <> 23)%Z)).
Proof.
  intros Hd. split.
  - intros d e Hr Hl. exact (executeRun_unlistable w g d e Hd Hr Hl).
  - intros t files g1 H. split; [|split].
    + intros e Hl.
      eapply (executeRun_not_built w g g1 t files); eauto.
      unfold built. rewrite Hl. reflexivity.
    + intros c e Hl Hn.
      eapply (executeRun_not_built w g g1 t files); eauto.
      unfold built. rewrite Hl, Hn. reflexivity.
    + intros c srv e Hl Hn Ht Hs. split; [|split; discriminate].
      eapply (executeRun_not_started w g g1 t files); eauto.
      unfold built. rewrite Hl, Hn. reflexivity.
Qed.

Lemma bootstrap_exit_codes_witness :
  snd (executeRun world_unreadable flags_confdir) = Exit 1 /\
  snd (executeRun world_bad_config flags_file) = Exit 23 /\
  snd (executeRun world_bad_build flags_file) = Exit 23 /\
  snd (executeRun world_bad_start flags_file) = Exit (-1).
Proof.
  split; [|split; [|split]].
  - apply (proj1 (bootstrap_exit_codes world_unreadable flags_confdir eq_refl)
             "conf" (ExtError "permission denied")); reflexivity.
  - apply (proj1 (proj2 (bootstrap_exit_codes world_bad_config flags_file
                           eq_refl) [] ["x.json"] flags_file eq_refl)
             (ExtError "invalid character")).
    reflexivity.
  - apply (proj1 (proj2 (proj2 (bootstrap_exit_codes world_bad_build flags_file
                           eq_refl) [] ["x.json"] flags_file eq_refl))
             0 (ExtError "unknown protocol")); reflexivity.
  - apply (proj2 (proj2 (proj2 (bootstrap_exit_codes world_bad_start flags_file
                           eq_refl) [] ["x.json"] flags_file eq_refl))
             0 1 (ExtError "address already in use")); reflexivity.
Defined.

(** ** ServiceSupervisor: one restart *)

Lemma bind_emit {B} (e : Event) (k : M B) (g : Globals) :
  (emit e ;; k) g = (e :: fst (k g), snd (k g)).
Proof. reflexivity. Qed.

Lemma scanStep_logs (w : World) (verbose : bool) (g : Globals) :
  forallb isLog (fst (scanStep w verbose g g)) = true.
Proof.
  unfold scanStep, readConfDir.
  destruct (dirExists w (configDir g)).
  - destruct (os_ReadDir w (configDir g)); destruct verbose; cbn;
      unfold bind; cbn; rewrite ?readConfDir_range_spec; reflexivity.
  - destruct (dirExists w (platform_GetConfDirPath w)); [|reflexivity].
    destruct (os_ReadDir w (platform_GetConfDirPath w)); destruct verbose; cbn;
      unfold bind; cbn; rewrite ?readConfDir_range_spec; reflexivity.
Qed.

Lemma pickSource_logs (w : World) (verbose : bool) (g : Globals) :
  forallb isLog (fst (pickSource w verbose g)) = true.
Proof.
  unfold pickSource. unfold bind at 1. cbn [get].
  destruct (0 <? length (configFiles g))%nat; [reflexivity|].
  destruct (os_Getwd w) as [wd|e].
  - destruct (fileExists w (filepath_Join w wd "config.json"));
      destruct (fileExists w (platform_GetConfigurationPath w));
      destruct verbose; reflexivity.
  - destruct (fileExists w (platform_GetConfigurationPath w));
      destruct verbose; reflexivity.
Qed.

(** Source resolution only writes to the log. *)
Lemma getConfigFilePath_logs (w : World) (verbose : bool) (g : Globals) :
  forallb isLog (fst (getConfigFilePath w verbose g)) = true.
Proof.
  rewrite getConfigFilePath_steps. unfold bind.
  pose proof (scanStep_logs w verbose g) as Hs.
  destruct (scanStep w verbose g g) as [t0 [u g0|c]]; cbn [fst] in *.
  - rewrite forallb_app, Hs. apply pickSource_logs.
  - exact Hs.
Qed.


Lemma closeLog_logs (r : option error) : forallb isLog (closeLog r) = true.
Proof. destruct r; reflexivity. Qed.


(** The effects and the result of one iteration whose source resolves. *)
Lemma restart_Ret (w : World) (st : SupervisorState) (g g1 : Globals)
    (t : list Event) (files : Arg) :
  getConfigFilePath w true g = (t, Ret files g1) ->
  restart w st g =
  (EvLog [LStr "[Auto Restart] Restarting Xray due to config change..."] ::
   EvClose (server st) (server_Close w (server st)) ::
   closeLog (server_Close w (server st)) ++
   t ++ buildCalls w (formatHint w g) files ++
   fst (swapEnd w st (formatHint w g) files),
   Ret (snd (swapEnd w st (formatHint w g) files)) g1).
Proof.
  intros H. apply startXray_Ret in H.
  unfold restart, swapEnd, log_Println.
  rewrite !bind_emit. cbn [fst snd].
  assert (Hc : (match server_Close w (server st) with
                | Some err =>
                    emit (EvLog
                      [LStr "[Auto Restart] Error closing server:"; LErr err])
                | None => ret tt
                end) g = (closeLog (server_Close w (server st)), Ret tt g))
    by (destruct (server_Close w (server st)); reflexivity).
  erewrite bind_Ret by exact Hc.
  erewrite bind_Ret by exact H. cbn [fst snd].
  destruct (built w (formatHint w g) files) as [ns|e].
  - rewrite !bind_emit.
    destruct (server_Start w ns); cbn; rewrite <- ?app_assoc; reflexivity.
  - cbn. rewrite <- ?app_assoc. reflexivity.
Qed.



Lemma swapEnd_failed (w : World) (st : SupervisorState) (fmt : string)
    (files : Arg) :
  swapFails w fmt files ->
  snd (swapEnd w st fmt files) = st /\
  exists pre msg e,
    fst (swapEnd w st fmt files) =
    pre ++ [EvLog [LStr msg; LErr e];
            EvLog [LStr "[Auto Restart] Keeping current server running"]] /\
    forall e', In e' pre -> exists ns err, e' = EvStart ns (Some err).
Proof.
  unfold swapFails, swapEnd.
  destruct (built w fmt files) as [ns|e].
  - destruct (server_Start w ns) as [err|]; [|contradiction].
    intros _. split; [reflexivity|].
    exists [EvStart ns (Some err)]. do 2 eexists. split; [reflexivity|].
    intros e' [<-|[]]. do 2 eexists. reflexivity.
  - intros _. split; [reflexivity|].
    exists []. do 2 eexists. split; [reflexivity|]. intros e' [].
Qed.

(** ** ServiceSupervisor: no generation counter *)

(** C6, as stated, fails: no number read off the variables of the program
    goes up by one at every successful swap.  From the same state, one
    successful swap to the handle 2 and two successful swaps, to the handle
    1 and then to the handle 2, end in the same state. *)
Lemma no_generation_counter :
  ~ (exists gen : Globals -> SupervisorState -> nat,
        forall (w : World) (st st' : SupervisorState) (g g1 g' : Globals)
               (t : list Event) (files : Arg),
          getConfigFilePath w true g = (t, Ret files g1) ->
          snd (restart w st g) = Ret st' g' ->
          (forall newServer,
              swapSucceeds w (formatHint w g) files newServer ->
              gen g' st' = S (gen g st)) /\
          (swapFails w (formatHint w g) files -> gen g' st' = gen g st)).
Proof.
  intros [gen H].
  pose (s0 := {| server := 0; watcher := Some 0 |}).
  pose (s1 := {| server := 1; watcher := Some 0 |}).
  pose (s2 := {| server := 2; watcher := Some 0 |}).
  assert (A : gen flags_file s2 = S (gen flags_file s0)).
  { apply (proj1 (H world_next s0 s2 flags_file flags_file flags_file
                    [] ["x.json"] eq_refl eq_refl) 2).
    split; reflexivity. }
  assert (B1 : gen flags_file s1 = S (gen flags_file s0)).
  { apply (proj1 (H world_conf s0 s1 flags_file flags_file flags_file
                    [] ["x.json"] eq_refl eq_refl) 1).
    split; reflexivity. }
  assert (B2 : gen flags_file s2 = S (gen flags_file s1)).
  { apply (proj1 (H world_next s1 s2 flags_file flags_file flags_file
                    [] ["x.json"] eq_refl eq_refl) 2).
    split; reflexivity. }
  lia.
Qed.

(** C6, amended: the supervisor holds the active Server handle and the
    watcher, and no counter.  An iteration whose source resolves returns to
    the loop; when the swap succeeds the handle is replaced by the new one,
    and when it fails the variables are left as they were. *)
Theorem swap_replaces_handle_on_success_only
    (w : World) (st : SupervisorState) (g g1 : Globals) (t : list Event)
    (files : Arg) :
  getConfigFilePath w true g = (t, Ret files g1) ->
  exists st',
    snd (restart w st g) = Ret st' g1 /\
    (forall newServer,
        swapSucceeds w (formatHint w g) files newServer ->
        st' = {| server := newServer; watcher := watcher st |}) /\
    (swapFails w (formatHint w g) files -> st' = st).
Proof.
  intros H. rewrite (restart_Ret w st g g1 t files H). cbn [snd].
  eexists. split; [reflexivity|]. split.
  - intros ns [Hb Hs]. unfold swapEnd. rewrite Hb, Hs. reflexivity.
  - intros Hf. apply (swapEnd_failed w st _ _ Hf).
Qed.

Lemma swap_replaces_handle_on_success_only_witness :
  exists st',
    snd (restart world_next {| server := 1; watcher := Some 0 |} flags_file) =
    Ret st' flags_file /\
    st' = {| server := 2; watcher := Some 0 |}.
Proof.
  destruct (swap_replaces_handle_on_success_only
              world_next {| server := 1; watcher := Some 0 |}
              flags_file flags_file [] ["x.json"] eq_refl)
    as (st' & Hret & Hok & _).
  exists st'. split; [exact Hret|].
  apply (Hok 2). split; reflexivity.
Defined.

(** ** ConfigWatcher: one signal per qualifying event *)

Lemma includes_write_or_create (op : Z) :
  negb (Z.land op (Z.lor fsnotify_Write fsnotify_Create) =? 0)%Z =
  includes op fsnotify_Write || includes op fsnotify_Create.
Proof.
  unfold includes. rewrite Z.land_lor_distr_r, <- negb_andb. f_equal.
  apply eq_true_iff_eq.
  rewrite andb_true_iff, !Z.eqb_eq. apply Z.lor_eq_0_iff.
Qed.

Lemma restarts_app (t t' : list Event) :
  restarts (t ++ t') = restarts t + restarts t'.
Proof.
  induction t as [|e t IH]; [reflexivity|].
  destruct e; cbn; rewrite ?IH; reflexivity.
Qed.

Lemma restarts_onEvent (event : fsnotify_Event) :
  restarts (onEvent event) =
  if includes (Op event) fsnotify_Write || includes (Op event) fsnotify_Create
  then 1 else 0.
Proof.
  unfold onEvent, writeOrCreate. rewrite includes_write_or_create.
  destruct (includes (Op event) fsnotify_Write
            || includes (Op event) fsnotify_Create); reflexivity.
Qed.

(** C7: for every event the loop receives it sends exactly one restart
    signal when the operation of the event includes write or create, and
    none otherwise; so the number of signals sent on any inbox is the number
    of received events whose operation includes write or create, however
    close together they come. *)
Theorem one_restart_per_write_or_create :
  (forall event : fsnotify_Event,
      restarts (onEvent event) =
      if includes (Op event) fsnotify_Write
         || includes (Op event) fsnotify_Create
      then 1 else 0) /\
  (forall inbox : list Received,
      restarts (watcherLoop inbox) =
      length (filter (fun event =>
                        includes (Op event) fsnotify_Write
                        || includes (Op event) fsnotify_Create)
                     (received inbox))).
Proof.
  split; [exact restarts_onEvent|].
  induction inbox as [|m rest IH]; [reflexivity|].
  destruct m as [event| |err|]; cbn [watcherLoop received].
  - rewrite restarts_app, restarts_onEvent, IH. cbn [filter].
    destruct (includes (Op event) fsnotify_Write
              || includes (Op event) fsnotify_Create); reflexivity.
  - reflexivity.
  - cbn [restarts]. exact IH.
  - reflexivity.
Qed.

(** ** The extension filter *)

Lemma str_app_nil_r (s : string) : (s ++ "")%string = s.
Proof. induction s as [|c s IH]; cbn; [reflexivity | rewrite IH; reflexivity]. Qed.

Lemma str_app_assoc (a b c : string) :
  ((a ++ b) ++ c)%string = (a ++ (b ++ c))%string.
Proof. induction a as [|x a IH]; cbn; [reflexivity | rewrite IH; reflexivity]. Qed.

Lemma str_app_eq_nil (a b : string) :
  (a ++ b)%string = "" -> a = "" /\ b = "".
Proof. destruct a; cbn; [auto | discriminate]. Qed.

Lemma matches_nil_nullable (r : re) (s : string) :
  matches r s -> s = "" -> nullable r = true.
Proof.
  induction 1 as [ |c|c Hc|r s x y Hr IHr Hs IHs|r s x Hr IH|r s x Hs IH
                  |r x Hr IH|r x y Hr IHr Hp IHp]; intros E; cbn;
    try discriminate; try reflexivity.
  - apply str_app_eq_nil in E. destruct E as [Ex Ey].
    rewrite (IHr Ex), (IHs Ey). reflexivity.
  - rewrite (IH E). reflexivity.
  - rewrite (IH E). apply orb_true_r.
  - exact (IH E).
  - apply str_app_eq_nil in E. exact (IHr (proj1 E)).
Qed.

Lemma nullable_matches_nil (r : re) : nullable r = true -> matches r "".
Proof.
  induction r as [ | |c| |r IHr s IHs|r IHr s IHs|r IH]; cbn; intros H;
    try discriminate.
  - constructor.
  - apply andb_prop in H. destruct H as [Hr Hs].
    change "" with ("" ++ "")%string. constructor; auto.
  - apply orb_prop in H. destruct H as [Hr|Hs].
    + apply MAltL; auto.
    + apply MAltR; auto.
  - apply MPlusOne; auto.
Qed.

(** A derivative accepts what is left of an accepted string. *)
Lemma matches_deriv (r : re) (z : string) :
  matches r z ->
  forall c s, z = String c s -> matches (deriv c r) s.
Proof.
  induction 1 as [ |d|d Hd|r s x y Hr IHr Hs IHs|r s x Hr IH|r s x Hs IH
                  |r x Hr IH|r x y Hr IHr Hp IHp]; intros c z E; cbn.
  - discriminate.
  - inversion E; subst. rewrite Ascii.eqb_refl. constructor.
  - inversion E; subst.
    destruct (Ascii.eqb_spec c newline) as [N|N]; [contradiction|constructor].
  - destruct x as [|a x].
    + cbn in E. pose proof (matches_nil_nullable _ _ Hr eq_refl) as N.
      rewrite N. apply MAltR. exact (IHs _ _ E).
    + cbn in E. inversion E; subst.
      destruct (nullable r).
      * apply MAltL. constructor; [exact (IHr _ _ eq_refl) | exact Hs].
      * constructor; [exact (IHr _ _ eq_refl) | exact Hs].
  - apply MAltL. exact (IH _ _ E).
  - apply MAltR. exact (IH _ _ E).
  - rewrite <- (str_app_nil_r z). constructor; [exact (IH _ _ E)|].
    apply MAltL. constructor.
  - destruct x as [|a x].
    + cbn in E. exact (IHp _ _ E).
    + cbn in E. inversion E; subst.
      constructor; [exact (IHr _ _ eq_refl) | apply MAltR; exact Hp].
Qed.

Lemma deriv_matches (c : ascii) (r : re) :
  forall s, matches (deriv c r) s -> matches r (String c s).
Proof.
  induction r as [ | |d| |r IHr s IHs|r IHr s IHs|r IH]; cbn; intros z H.
  - inversion H.
  - inversion H.
  - destruct (Ascii.eqb_spec c d) as [E|E]; inversion H; subst. constructor.
  - destruct (Ascii.eqb_spec c newline) as [E|E]; inversion H; subst.
    constructor. exact E.
  - destruct (nullable r) eqn:N.
    + inversion H as [ | | | |? ? ? H1|? ? ? H1| | ]; subst.
      * inversion H1 as [ | | |? ? x y Hx Hy| | | | ]; subst.
        change (String c (x ++ y)) with (String c x ++ y)%string.
        constructor; [apply IHr; exact Hx | exact Hy].
      * change (String c z) with ("" ++ String c z)%string.
        constructor; [apply nullable_matches_nil; exact N | apply IHs; exact H1].
    + inversion H as [ | | |? ? x y Hx Hy| | | | ]; subst.
      change (String c (x ++ y)) with (String c x ++ y)%string.
      constructor; [apply IHr; exact Hx | exact Hy].
  - inversion H as [ | | | |? ? ? H1|? ? ? H1| | ]; subst.
    + apply MAltL. apply IHr. exact H1.
    + apply MAltR. apply IHs. exact H1.
  - inversion H as [ | | |? ? x y Hx Hy| | | | ]; subst.
    inversion Hy as [ | | | |? ? ? H1|? ? ? H1| | ]; subst.
    + inversion H1; subst. rewrite str_app_nil_r.
      apply MPlusOne. apply IH. exact Hx.
    + change (String c (x ++ y)) with (String c x ++ y)%string.
      apply MPlusMore; [apply IH; exact Hx | exact H1].
Qed.

(** Matching by derivatives decides the language of the pattern. *)
Lemma re_match_matches (s : string) :
  forall r, re_match r s = true <-> matches r s.
Proof.
  induction s as [|c s IH]; intros r; cbn.
  - split; [apply nullable_matches_nil|].
    intros H. exact (matches_nil_nullable _ _ H eq_refl).
  - rewrite IH. split; [apply deriv_matches|].
    intros H. exact (matches_deriv _ _ H _ _ eq_refl).
Qed.

Lemma matches_Lit (l : string) :
  forall x, matches (Lit l) x <-> x = l.
Proof.
  induction l as [|c l IH]; intros x; cbn.
  - split; intros H; [inversion H; reflexivity | subst; constructor].
  - split; intros H.
    + inversion H as [ | | |? ? a b Ha Hb| | | | ]; subst.
      inversion Ha; subst. apply IH in Hb. subst. reflexivity.
    + subst. change (String c l) with (String c "" ++ l)%string.
      constructor; [constructor | apply IH; reflexivity].
Qed.

Lemma matches_dots_inv (r : re) (p : string) :
  matches r p -> r = Plus AnyNoNL -> p <> "" /\ noNewline p = true.
Proof.
  induction 1 as [ |d|d Hd|r s x y Hr IHr Hs IHs|r s x Hr IH|r s x Hs IH
                  |r x Hr IH|r x y Hr IHr Hp IHp]; intros E;
    try discriminate; inversion E; subst.
  - inversion Hr as [ | |c Hc| | | | | ]; subst. split; [discriminate|].
    cbn. destruct (Ascii.eqb_spec c newline); [contradiction|reflexivity].
  - inversion Hr as [ | |c Hc| | | | | ]; subst.
    destruct (IHp eq_refl) as [_ Hy]. split; [discriminate|].
    cbn. rewrite Hy.
    destruct (Ascii.eqb_spec c newline); [contradiction|reflexivity].
Qed.

Lemma matches_dots (p : string) :
  matches (Plus AnyNoNL) p <-> p <> "" /\ noNewline p = true.
Proof.
  split; [intros H; exact (matches_dots_inv _ _ H eq_refl)|].
  induction p as [|c p IH]; intros [Hne Hn]; [contradiction|].
  cbn in Hn. apply andb_prop in Hn. destruct Hn as [Hc Hp].
  assert (Hc' : c <> newline).
  { destruct (Ascii.eqb_spec c newline); [discriminate|assumption]. }
  destruct p as [|d p].
  - apply MPlusOne. constructor. exact Hc'.
  - change (String c (String d p)) with (String c "" ++ String d p)%string.
    apply MPlusMore; [constructor; exact Hc'|].
    apply IH. split; [discriminate | exact Hp].
Qed.

(** X1: a name passes the filter of [readConfDir] exactly when it is a
    non-empty stem without a newline followed by [.json] or [.jsonc]. *)
Theorem regexp_MatchString_iff (name : string) :
  regexp_MatchString name = true <->
  exists stem,
    stem <> "" /\ noNewline stem = true /\
    (name = (stem ++ ".json")%string \/ name = (stem ++ ".jsonc")%string).
Proof.
  unfold regexp_MatchString, getRegepxByFormat. rewrite re_match_matches.
  split.
  - intros H.
    inversion H as [ | | |? ? x y Hx Hy| | | | ]; subst.
    inversion Hy as [ | | |? ? a b Ha Hb| | | | ]; subst.
    inversion Ha; subst.
    apply matches_dots in Hx. destruct Hx as [Hne Hn].
    exists x. split; [exact Hne|]. split; [exact Hn|].
    inversion Hb as [ | | | |? ? ? H1|? ? ? H1| | ]; subst;
      [apply (proj1 (matches_Lit "json" _)) in H1
      |apply (proj1 (matches_Lit "jsonc" _)) in H1];
      subst; [left|right]; reflexivity.
  - intros (stem & Hne & Hn & [E|E]); subst name.
    + constructor; [apply matches_dots; auto|].
      change ".json" with (String "." "" ++ "json")%string.
      constructor; [constructor|]. apply MAltL. apply matches_Lit. reflexivity.
    + constructor; [apply matches_dots; auto|].
      change ".jsonc" with (String "." "" ++ "jsonc")%string.
      constructor; [constructor|]. apply MAltR. apply matches_Lit. reflexivity.
Qed.

(** ** ConfigLocator: more of its behaviour *)

(** X2: on a directory that can be listed, [readConfDir] writes nothing to
    the log and does not end the process; it keeps what [configFiles] held
    and appends [path.Join(dirPath, name)] for exactly the names that pass
    the filter, in listing order. *)
Theorem readConfDir_appends_matching
    (w : World) (dirPath : string) (confs : list string) (g : Globals) :
  os_ReadDir w dirPath = Ok confs ->
  readConfDir w dirPath g =
  ([], Ret tt
         (set_configFiles
            (configFiles g ++
             map (path_Join w dirPath) (filter regexp_MatchString confs)) g)).
Proof.
  intros H. unfold readConfDir. rewrite H. apply readConfDir_range_spec.
Qed.

Lemma readConfDir_appends_matching_witness :
  readConfDir world_conf "conf" flags_both =
  ([], Ret tt (set_configFiles ["x.json"; "conf/a.json"; "conf/c.jsonc"]
                               flags_both)).
Proof.
  apply (readConfDir_appends_matching world_conf "conf"
           ["a.json"; "b.txt"; "c.jsonc"; ".json"; "d.JSON"] flags_both).
  reflexivity.
Defined.

Lemma defaultSource_nonempty (w : World) : defaultSource w <> [].
Proof.
  unfold defaultSource, envOrStdin.
  destruct (os_Getwd w) as [wd|e];
    [destruct (fileExists w (filepath_Join w wd "config.json"))|];
    destruct (fileExists w (platform_GetConfigurationPath w)); discriminate.
Qed.

(** X3: a source that [getConfigFilePath] returns is never empty. *)
Theorem getConfigFilePath_nonempty
    (w : World) (verbose : bool) (g g1 : Globals) (t : list Event) (r : Arg) :
  getConfigFilePath w verbose g = (t, Ret r g1) -> r <> [].
Proof.
  intros H. apply getConfigFilePath_Ret in H. destruct H as [_ H]. subst r.
  destruct (configFiles g1) as [|f fs]; cbn.
  - apply defaultSource_nonempty.
  - discriminate.
Qed.

Lemma getConfigFilePath_nonempty_witness :
  ["conf/a.json"; "conf/c.jsonc"] <> [].
Proof.
  apply (getConfigFilePath_nonempty world_conf false flags_confdir
           (set_configFiles ["conf/a.json"; "conf/c.jsonc"] flags_confdir) []).
  reflexivity.
Defined.

Lemma scanStep_verbose (w : World) (g : Globals) :
  snd (scanStep w true g g) = snd (scanStep w false g g).
Proof.
  unfold scanStep, readConfDir.
  destruct (dirExists w (configDir g)).
  - destruct (os_ReadDir w (configDir g)); cbn; unfold bind; cbn;
      rewrite ?readConfDir_range_spec; reflexivity.
  - destruct (dirExists w (platform_GetConfDirPath w)); [|reflexivity].
    destruct (os_ReadDir w (platform_GetConfDirPath w)); cbn; unfold bind; cbn;
      rewrite ?readConfDir_range_spec; reflexivity.
Qed.

(** X4: [verbose] changes what is logged and nothing else: with and without
    it the call returns the same source and leaves the same flags, or ends
    the process with the same status. *)
Theorem getConfigFilePath_verbose_only_logs (w : World) (g : Globals) :
  snd (getConfigFilePath w true g) = snd (getConfigFilePath w false g).
Proof.
  rewrite !getConfigFilePath_steps. unfold bind.
  pose proof (scanStep_verbose w g) as Hs.
  destruct (scanStep w true g g) as [t1 [u1 g1|c1]];
    destruct (scanStep w false g g) as [t2 [u2 g2|c2]]; cbn in Hs;
    try discriminate; inversion Hs; subst; [|reflexivity].
  destruct (pickSource_spec w true g2) as [ta Ha].
  destruct (pickSource_spec w false g2) as [tb Hb].
  rewrite Ha, Hb. reflexivity.
Qed.

Lemma resolvedDir_set_configFiles (w : World) (fs : Arg) (g : Globals) :
  resolvedDir w (set_configFiles fs g) = resolvedDir w g.
Proof. reflexivity. Qed.

Lemma scanned_set_configFiles (w : World) (fs : Arg) (g : Globals) :
  scanned w (set_configFiles fs g) = scanned w g.
Proof. reflexivity. Qed.

(** After a call that returned, a call in the same environment returns
    too, with the scan's entries added once more. *)
Lemma getConfigFilePath_again (w : World) (v1 v2 : bool) (g g1 : Globals)
    (t1 : list Event) (r1 : Arg) :
  getConfigFilePath w v1 g = (t1, Ret r1 g1) ->
  exists t2 r2,
    getConfigFilePath w v2 g1 =
    (t2, Ret r2 (set_configFiles (configFiles g1 ++ scanned w g) g1)).
Proof.
  intros H.
  pose proof (getConfigFilePath_Ret _ _ _ _ _ _ H) as [Hg _].
  assert (Hd : resolvedDir w g1 = resolvedDir w g)
    by (rewrite Hg; apply resolvedDir_set_configFiles).
  unfold scanned. destruct (resolvedDir w g) as [d|] eqn:Hr.
  - destruct (os_ReadDir w d) as [confs|e] eqn:Hl.
    + apply (getConfigFilePath_listed w v2 g1 d confs Hd Hl).
    + destruct (getConfigFilePath_unlistable w v1 g d e Hr Hl) as [t E].
      rewrite E in H. discriminate H.
  - destruct (getConfigFilePath_no_dir w v2 g1 Hd) as [t E].
    rewrite app_nil_r, set_configFiles_same. eexists; eexists; exact E.
Qed.

(** X5: the scan accumulates from call to call.  When a call returns, a
    second call in the same environment returns as well, and [configFiles]
    holds the entries of the scan once after the first call and twice after
    the second; when that list is not empty it is what each call returns. *)
Theorem getConfigFilePath_accumulates
    (w : World) (verbose : bool) (g g1 : Globals) (t1 : list Event)
    (r1 : Arg) :
  getConfigFilePath w verbose g = (t1, Ret r1 g1) ->
  exists t2 r2 g2,
    getConfigFilePath w verbose g1 = (t2, Ret r2 g2) /\
    configFiles g1 = configFiles g ++ scanned w g /\
    configFiles g2 = configFiles g ++ scanned w g ++ scanned w g /\
    (configFiles g1 <> [] -> r1 = configFiles g1 /\ r2 = r1 ++ scanned w g).
Proof.
  intros H.
  destruct (getConfigFilePath_again w verbose verbose g g1 t1 r1 H)
    as (t2 & r2 & E).
  pose proof (getConfigFilePath_Ret _ _ _ _ _ _ H) as [Hg Hr1].
  pose proof (getConfigFilePath_Ret _ _ _ _ _ _ E) as [_ Hr2].
  assert (Hc1 : configFiles g1 = configFiles g ++ scanned w g)
    by (rewrite Hg; reflexivity).
  exists t2, r2, (set_configFiles (configFiles g1 ++ scanned w g) g1).
  split; [exact E|]. split; [exact Hc1|]. split.
  - cbn [configFiles set_configFiles]. rewrite Hc1, <- app_assoc. reflexivity.
  - intros Hne. cbn [configFiles set_configFiles] in Hr2.
    destruct (configFiles g1) as [|f fs] eqn:Hf; [contradiction|].
    cbn in Hr1, Hr2. subst r1 r2. split; reflexivity.
Qed.

Lemma getConfigFilePath_accumulates_witness :
  exists t2 r2 g2,
    getConfigFilePath world_conf false
      (set_configFiles ["conf/a.json"; "conf/c.jsonc"] flags_confdir) =
    (t2, Ret r2 g2) /\
    configFiles g2 =
    ["conf/a.json"; "conf/c.jsonc"; "conf/a.json"; "conf/c.jsonc"] /\
    r2 = ["conf/a.json"; "conf/c.jsonc"; "conf/a.json"; "conf/c.jsonc"].
Proof.
  destruct (getConfigFilePath_accumulates world_conf false flags_confdir
              (set_configFiles ["conf/a.json"; "conf/c.jsonc"] flags_confdir)
              [] ["conf/a.json"; "conf/c.jsonc"] eq_refl)
    as (t2 & r2 & g2 & E & _ & Hc & Hr).
  exists t2, r2, g2. split; [exact E|]. split; [exact Hc|].
  apply Hr. discriminate.
Defined.

(** X6: a configuration directory that exists and holds no matching entry
    does not give an empty source: with no explicit file the call goes on
    to the working-directory file, the environment-default file and
    standard input, and leaves the flags as they were. *)
Theorem empty_scan_falls_through
    (w : World) (verbose : bool) (g : Globals) (d : string)
    (confs : list string) :
  resolvedDir w g = Some d ->
  os_ReadDir w d = Ok confs ->
  filter regexp_MatchString confs = [] ->
  configFiles g = [] ->
  exists t, getConfigFilePath w verbose g = (t, Ret (defaultSource w) g).
Proof.
  intros Hd Hl Hf Hc.
  destruct (getConfigFilePath_listed w verbose g d confs Hd Hl) as (t & r & E).
  assert (Hm : matchingEntries w d confs = [])
    by (unfold matchingEntries; rewrite Hf; reflexivity).
  rewrite Hm, Hc in E. cbn [app] in E. rewrite <- Hc in E at 1.
  rewrite set_configFiles_same in E.
  pose proof (getConfigFilePath_Ret _ _ _ _ _ _ E) as [_ Hr].
  rewrite Hc in Hr. cbn in Hr. subst r. exists t. exact E.
Qed.

Lemma empty_scan_falls_through_witness :
  exists t,
    getConfigFilePath world_no_match true flags_confdir =
    (t, Ret ["stdin:"] flags_confdir).
Proof.
  apply (empty_scan_falls_through world_no_match true flags_confdir "conf"
           ["README"; "notes.txt"]); reflexivity.
Defined.

(** X7: of the two directories only one is scanned.  When [-confdir] names
    a directory it is the one, whether or not the environment names one
    too; the directory of the environment is scanned when [-confdir] is
    absent or is not a directory.  Either way [configFiles] is extended by
    the matching entries of the directory scanned. *)
Theorem one_directory_is_scanned
    (w : World) (verbose : bool) (g : Globals) (confs : list string) :
  (dirExists w (configDir g) = true ->
   os_ReadDir w (configDir g) = Ok confs ->
   exists t r,
     getConfigFilePath w verbose g =
     (t, Ret r (set_configFiles
                  (configFiles g ++
                   map (path_Join w (configDir g))
                       (filter regexp_MatchString confs)) g))) /\
  (dirExists w (configDir g) = false ->
   dirExists w (platform_GetConfDirPath w) = true ->
   os_ReadDir w (platform_GetConfDirPath w) = Ok confs ->
   exists t r,
     getConfigFilePath w verbose g =
     (t, Ret r (set_configFiles
                  (configFiles g ++
                   map (path_Join w (platform_GetConfDirPath w))
                       (filter regexp_MatchString confs)) g))).
Proof.
  split.
  - intros Hd Hl.
    apply (getConfigFilePath_listed w verbose g (configDir g) confs); [|exact Hl].
    unfold resolvedDir. rewrite Hd. reflexivity.
  - intros Hd He Hl.
    apply (getConfigFilePath_listed w verbose g (platform_GetConfDirPath w)
             confs); [|exact Hl].
    unfold resolvedDir. rewrite Hd, He. reflexivity.
Qed.

Lemma one_directory_is_scanned_witness :
  (exists t r,
      getConfigFilePath world_env false flags_confdir =
      (t, Ret r (set_configFiles ["conf/a.json"; "conf/c.jsonc"]
                                 flags_confdir))) /\
  (exists t r,
      getConfigFilePath world_env false flags_file =
      (t, Ret r (set_configFiles ["x.json"; "/etc/xray/base.json"]
                                 flags_file))).
Proof.
  split.
  - apply (proj1 (one_directory_is_scanned world_env false flags_confdir
                    ["a.json"; "b.txt"; "c.jsonc"; ".json"; "d.JSON"]));
      reflexivity.
  - apply (proj2 (one_directory_is_scanned world_env false flags_file
                    ["base.json"; "README"])); reflexivity.
Defined.

(** X8: when no directory is scanned the first of these decides, and the
    flags stay as they were: explicit files, returned as given and without
    a look at the file system or a line in the log; else a [config.json]
    file in the working directory, even when the environment-default file
    exists too; else the environment-default file. *)
Theorem first_available_source
    (w : World) (verbose : bool) (g : Globals) :
  resolvedDir w g = None ->
  (configFiles g <> [] ->
   getConfigFilePath w verbose g = ([], Ret (configFiles g) g)) /\
  (forall wd,
      configFiles g = [] ->
      os_Getwd w = Ok wd ->
      fileExists w (filepath_Join w wd "config.json") = true ->
      exists t,
        getConfigFilePath w verbose g =
        (t, Ret [filepath_Join w wd "config.json"] g)) /\
  (configFiles g = [] ->
   (forall wd, os_Getwd w = Ok wd ->
               fileExists w (filepath_Join w wd "config.json") = false) ->
   fileExists w (platform_GetConfigurationPath w) = true ->
   exists t,
     getConfigFilePath w verbose g =
     (t, Ret [platform_GetConfigurationPath w] g)).
Proof.
  intros Hd. split; [|split].
  - intros Hne. rewrite getConfigFilePath_steps.
    assert (Hs : scanStep w verbose g g = ([], Ret tt g)).
    { unfold scanStep, resolvedDir in *.
      destruct (dirExists w (configDir g)); [discriminate|].
      destruct (dirExists w (platform_GetConfDirPath w)); [discriminate|].
      reflexivity. }
    erewrite bind_Ret by exact Hs. unfold pickSource, bind. cbn [get].
    destruct (configFiles g) as [|f fs]; [contradiction|reflexivity].
  - intros wd Hc Hwd Hf.
    destruct (getConfigFilePath_no_dir w verbose g Hd) as [t E].
    exists t. rewrite E, Hc. cbn. unfold defaultSource. rewrite Hwd, Hf.
    reflexivity.
  - intros Hc Hwd Hf.
    destruct (getConfigFilePath_no_dir w verbose g Hd) as [t E].
    exists t. rewrite E, Hc. cbn. f_equal. f_equal.
    unfold defaultSource, envOrStdin. rewrite Hf.
    destruct (os_Getwd w) as [wd|e]; [|reflexivity].
    rewrite (Hwd wd eq_refl). reflexivity.
Qed.

Lemma first_available_source_witness :
  getConfigFilePath world_defaults true flags_file =
  ([], Ret ["x.json"] flags_file) /\
  (exists t,
      getConfigFilePath world_defaults true flags_none =
      (t, Ret ["/work/config.json"] flags_none)) /\
  (exists t,
      getConfigFilePath world_env_file true flags_none =
      (t, Ret ["/usr/local/etc/xray/config.json"] flags_none)).
Proof.
  split; [|split].
  - apply (proj1 (first_available_source world_defaults true flags_file
                    eq_refl)). discriminate.
  - apply (proj1 (proj2 (first_available_source world_defaults true flags_none
                           eq_refl)) "/work"); reflexivity.
  - apply (proj2 (proj2 (first_available_source world_env_file true flags_none
                           eq_refl))).
    + reflexivity.
    + intros wd E. inversion E. reflexivity.
    + reflexivity.
Defined.

(** ** [-dump] and [-test] *)

Lemma dumpConfig_Ret (w : World) (g g1 : Globals) (t : list Event)
    (files : Arg) :
  getConfigFilePath w false g = (t, Ret files g1) ->
  dumpConfig w g =
  (t ++ EvGetMergedConfig files ::
        match core_GetMergedConfig w files with
        | Err err => [EvLog [LErr err]; EvSleep]
        | Ok config => [EvLog [LCfg config]]
        end,
   Ret (match core_GetMergedConfig w files with
        | Err _ => 23%Z
        | Ok _ => 0%Z
        end) g1).
Proof.
  intros H. unfold dumpConfig. erewrite bind_Ret by exact H.
  rewrite bind_emit.
  destruct (core_GetMergedConfig w files); reflexivity.
Qed.

Lemma executeRun_dump (w : World) (g : Globals) :
  dump g = true ->
  executeRun w g =
  (EvSeverityLogger :: fst (dumpConfig w g),
   match snd (dumpConfig w g) with
   | Ret errCode _ => Exit errCode
   | Exit c => Exit c
   end).
Proof.
  intros Hd.
  assert (Hi : (emit EvSeverityLogger ;;
                errCode <- dumpConfig w ;; os_Exit errCode) g =
               (EvSeverityLogger :: fst (dumpConfig w g),
                match snd (dumpConfig w g) with
                | Ret errCode _ => @Exit unit errCode
                | Exit c => Exit c
                end)).
  { rewrite bind_emit. unfold bind.
    destruct (dumpConfig w g) as [t [errCode g1|c]]; cbn;
      rewrite ?app_nil_r; reflexivity. }
  unfold executeRun. unfold bind at 1. cbn [get app]. rewrite Hd.
  destruct (dumpConfig w g) as [t [errCode g1|c]]; cbn [fst snd] in *;
    (erewrite bind_Exit by exact Hi); reflexivity.
Qed.

(** X9: with [-dump] the run only merges and prints.  Once the source
    resolves, the process ends with 23 when the merge fails and with 0 when
    it succeeds, after effects that hold a single engine call,
    [core.GetMergedConfig]: nothing is loaded, built or started, also when
    [-test] is set as well. *)
Theorem dump_only_merges
    (w : World) (g g1 : Globals) (t : list Event) (files : Arg) :
  dump g = true ->
  getConfigFilePath w false g = (t, Ret files g1) ->
  forallb isLog t = true /\
  (forall err,
      core_GetMergedConfig w files = Err err ->
      executeRun w g =
      (EvSeverityLogger :: t ++
         [EvGetMergedConfig files; EvLog [LErr err]; EvSleep], Exit 23)) /\
  (forall config,
      core_GetMergedConfig w files = Ok config ->
      executeRun w g =
      (EvSeverityLogger :: t ++
         [EvGetMergedConfig files; EvLog [LCfg config]], Exit 0)).
Proof.
  intros Hd H. split; [|split].
  - pose proof (getConfigFilePath_logs w false g) as L.
    rewrite H in L. exact L.
  - intros err Hm. rewrite (executeRun_dump _ _ Hd), (dumpConfig_Ret _ _ _ _ _ H).
    rewrite Hm. reflexivity.
  - intros config Hm.
    rewrite (executeRun_dump _ _ Hd), (dumpConfig_Ret _ _ _ _ _ H).
    rewrite Hm. reflexivity.
Qed.

Lemma dump_only_merges_witness :
  executeRun world_bad_merge flags_dump =
  ([EvSeverityLogger; EvGetMergedConfig ["x.json"];
    EvLog [LErr (ExtError "invalid character")]; EvSleep], Exit 23) /\
  executeRun world_conf flags_dump =
  ([EvSeverityLogger; EvGetMergedConfig ["x.json"]; EvLog [LCfg "{}"]],
   Exit 0).
Proof.
  split.
  - apply (proj1 (proj2 (dump_only_merges world_bad_merge flags_dump flags_dump
                           [] ["x.json"] eq_refl eq_refl))
             (ExtError "invalid character")).
    reflexivity.
  - apply (proj2 (proj2 (dump_only_merges world_conf flags_dump flags_dump
                           [] ["x.json"] eq_refl eq_refl)) "{}").
    reflexivity.
Defined.

(** X10: with [-test] (and no [-dump]) a configuration that loads and
    builds ends the process with 0 right after the build: the effects are
    the version banner, the log of the locator, [core.LoadConfig],
    [core.New] and one log line, and [Start] is never called. *)
Theorem test_never_starts
    (w : World) (g g1 : Globals) (t : list Event) (files : Arg)
    (c : Config) (srv : Server) :
  dump g = false ->
  test g = true ->
  getConfigFilePath w true g = (t, Ret files g1) ->
  core_LoadConfig w (formatHint w g) files = Ok c ->
  core_New w c = Ok srv ->
  forallb isLog t = true /\
  executeRun w g =
  (EvPrintVersion :: t ++
     [EvLoadConfig (formatHint w g) files; EvNew c;
      EvLog [LStr "Configuration OK."]], Exit 0).
Proof.
  intros Hd Ht H Hl Hn. split.
  - pose proof (getConfigFilePath_logs w true g) as L.
    rewrite H in L. exact L.
  - rewrite (executeRun_prefix _ _ Hd).
    apply startXray_Ret in H. unfold built, buildCalls in H.
    rewrite Hl, Hn in H.
    rewrite bind_emit. erewrite bind_Ret by exact H.
    rewrite Ht. cbn [fst snd]. unfold bind at 1 2. cbn.
    rewrite <- app_assoc. reflexivity.
Qed.

Lemma test_never_starts_witness :
  executeRun world_conf flags_test =
  ([EvPrintVersion; EvLoadConfig "auto" ["x.json"]; EvNew 0;
    EvLog [LStr "Configuration OK."]], Exit 0).
Proof.
  apply (test_never_starts world_conf flags_test flags_test [] ["x.json"] 0 1);
    reflexivity.
Defined.

(** ** ConfigWatcher: setting up *)

Lemma startFileWatcher_range_spec (w : World) (configFiles : Arg)
    (g : Globals) :
  exists tr,
    startFileWatcher_range w configFiles g = (tr, Ret tt g) /\
    adds tr =
    flat_map (fun file =>
                if String.eqb file "stdin:" then []
                else match filepath_Abs w file with
                     | Ok absPath => [absPath]
                     | Err _ => []
                     end) configFiles /\
    inert tr = true.
Proof.
  induction configFiles as [|file rest IH].
  - exists []. repeat split.
  - destruct IH as (tr & E & Ha & Hi).
    cbn [startFileWatcher_range flat_map].
    destruct (String.eqb file "stdin:"); cbn [negb].
    + exists tr. erewrite bind_Ret by reflexivity. rewrite E.
      repeat split; assumption.
    + destruct (filepath_Abs w file) as [absPath|err].
      * destruct (watcher_Add w absPath) as [err|].
        -- exists (EvWatcherAdd absPath (Some err) ::
                   EvLog [LStr "Error watching"; LStr absPath; LStr ":";
                          LErr err] :: tr).
           unfold bind at 1. rewrite bind_emit. cbn.
           rewrite E. cbn. rewrite Ha. repeat split. exact Hi.
        -- exists (EvWatcherAdd absPath None ::
                   EvLog [LStr "Watching config file:"; LStr absPath] :: tr).
           unfold bind at 1. rewrite bind_emit. cbn.
           rewrite E. cbn. rewrite Ha. repeat split. exact Hi.
      * exists (EvLog [LStr "Error getting absolute path for"; LStr file;
                       LStr ":"; LErr err] :: tr).
        unfold bind at 1. cbn. rewrite E. cbn. repeat split; assumption.
Qed.

(** X11: setting up the watcher.  When no watcher can be created the error
    is returned and nothing is watched.  Otherwise the watcher is returned
    whatever happens to the files: [Add] is called, in order, on the
    absolute path of every entry of the source other than ["stdin:"] whose
    absolute path can be computed, a failing [Add] does not stop the others,
    and the flags are left alone. *)
Theorem startFileWatcher_watches_files
    (w : World) (configFiles : Arg) (g : Globals) :
  (forall err,
      fsnotify_NewWatcher w = Err err ->
      startFileWatcher w configFiles g = ([EvNewWatcher], Ret (Err err) g)) /\
  (forall wt,
      fsnotify_NewWatcher w = Ok wt ->
      exists tr,
        startFileWatcher w configFiles g =
        (EvNewWatcher :: tr, Ret (Ok wt) g) /\
        adds tr =
        flat_map (fun file =>
                    if String.eqb file "stdin:" then []
                    else match filepath_Abs w file with
                         | Ok absPath => [absPath]
                         | Err _ => []
                         end) configFiles).
Proof.
  split.
  - intros err H. unfold startFileWatcher. rewrite bind_emit, H. reflexivity.
  - intros wt H.
    destruct (startFileWatcher_range_spec w configFiles g) as (tr & E & Ha & _).
    exists tr. split; [|exact Ha].
    unfold startFileWatcher. rewrite bind_emit, H.
    erewrite bind_Ret by exact E. cbn. rewrite app_nil_r. reflexivity.
Qed.

Lemma startFileWatcher_watches_files_witness :
  startFileWatcher world_watch_trouble ["a.json"] flags_none =
  ([EvNewWatcher], Ret (Err (ExtError "too many open files")) flags_none) /\
  exists tr,
    startFileWatcher world_watch_partial
      ["a.json"; "stdin:"; "b.json"; "c.json"; "d.json"] flags_none =
    (EvNewWatcher :: tr, Ret (Ok 5) flags_none) /\
    adds tr = ["/work/a.json"; "/work/c.json"; "/work/d.json"].
Proof.
  split.
  - apply (proj1 (startFileWatcher_watches_files world_watch_trouble
                    ["a.json"] flags_none)).
    reflexivity.
  - apply (proj2 (startFileWatcher_watches_files world_watch_partial
                    ["a.json"; "stdin:"; "b.json"; "c.json"; "d.json"]
                    flags_none) 5).
    reflexivity.
Defined.

(** ** Which handles run *)

Lemma running_app (t t' : list Event) (active : list Server) :
  running (t ++ t') active = running t' (running t active).
Proof.
  revert active. induction t as [|e t IH]; intros active; [reflexivity|].
  destruct e as [| | | | | | | |s r|s r| | | |]; cbn; try apply IH.
  destruct r; apply IH.
Qed.

Lemma running_inert (t : list Event) (active : list Server) :
  inert t = true -> running t active = active.
Proof.
  revert active. induction t as [|e t IH]; intros active H; [reflexivity|].
  cbn in H. apply andb_prop in H. destruct H as [He Ht].
  destruct e; try discriminate; cbn; apply IH; exact Ht.
Qed.

Lemma logs_inert (t : list Event) : forallb isLog t = true -> inert t = true.
Proof.
  induction t as [|e t IH]; intros H; [reflexivity|].
  cbn in H. apply andb_prop in H. destruct H as [He Ht].
  destruct e; try discriminate. cbn. apply IH. exact Ht.
Qed.

Lemma buildCalls_inert (w : World) (fmt : string) (files : Arg) :
  inert (buildCalls w fmt files) = true.
Proof.
  unfold buildCalls. destruct (core_LoadConfig w fmt files); reflexivity.
Qed.

Lemma bind_ret_l {A B} (a : A) (f : A -> M B) (g : Globals) :
  bind (ret a) f g = f a g.
Proof. unfold bind, ret. cbn. destruct (f a g); reflexivity. Qed.

Lemma inert_app (t t' : list Event) :
  inert (t ++ t') = inert t && inert t'.
Proof. apply forallb_app. Qed.

(** ** Initial bootstrap: a run that starts *)

(** X12: a bootstrap without [-dump] and [-test] whose configuration
    loads, builds and starts goes on to the loops, whether or not a watcher
    can be created: the supervisor holds the handle that was built, that
    handle is the one handle running, the watcher is the one created or
    none, and the source has been resolved a second time, for the watcher,
    so [configFiles] holds the entries of the scan twice. *)
Theorem bootstrap_starts_one_handle
    (w : World) (g g1 : Globals) (t : list Event) (files : Arg)
    (c : Config) (srv : Server) :
  dump g = false ->
  test g = false ->
  getConfigFilePath w true g = (t, Ret files g1) ->
  core_LoadConfig w (formatHint w g) files = Ok c ->
  core_New w c = Ok srv ->
  server_Start w srv = None ->
  exists tr g2,
    executeRun w g =
    (tr, Ret {| server := srv;
                watcher := match fsnotify_NewWatcher w with
                           | Ok wt => Some wt
                           | Err _ => None
                           end |} g2) /\
    running tr [] = [srv] /\
    configFiles g2 = configFiles g ++ scanned w g ++ scanned w g.
Proof.
  intros Hd Ht H Hl Hn Hs.
  pose proof (getConfigFilePath_logs w true g) as L1. rewrite H in L1.
  cbn [fst] in L1.
  destruct (getConfigFilePath_again w true true g g1 t files H)
    as (t2 & files2 & H2).
  pose proof (getConfigFilePath_logs w true g1) as L2. rewrite H2 in L2.
  cbn [fst] in L2.
  pose proof (getConfigFilePath_Ret _ _ _ _ _ _ H) as [Hg1 _].
  set (g2 := set_configFiles (configFiles g1 ++ scanned w g) g1) in *.
  assert (Hw : exists tw,
             startFileWatcher w files2 g2 =
             (tw, Ret (fsnotify_NewWatcher w) g2) /\ inert tw = true).
  { unfold startFileWatcher. rewrite bind_emit.
    destruct (fsnotify_NewWatcher w) as [wt|err].
    - destruct (startFileWatcher_range_spec w files2 g2) as (tr & E & _ & Hi).
      exists (EvNewWatcher :: tr). erewrite bind_Ret by exact E. cbn.
      rewrite app_nil_r. split; [reflexivity | exact Hi].
    - exists [EvNewWatcher]. split; reflexivity. }
  destruct Hw as (tw & Hw & Hiw).
  apply startXray_Ret in H. unfold built, buildCalls in H.
  rewrite Hl, Hn in H.
  rewrite (executeRun_prefix _ _ Hd).
  rewrite bind_emit. erewrite bind_Ret by exact H.
  rewrite Ht. cbn [fst snd]. rewrite bind_ret_l.
  rewrite bind_emit, Hs, bind_emit. cbn [fst snd].
  erewrite bind_Ret by exact H2. erewrite bind_Ret by exact Hw.
  unfold log_Println.
  destruct (fsnotify_NewWatcher w) as [wt|err];
    unfold bind, emit, ret; cbn [fst snd app];
    (eexists; exists g2; split; [reflexivity|]); (split;
      [|unfold g2; cbn [configFiles set_configFiles]; rewrite Hg1;
        cbn [configFiles set_configFiles]; rewrite <- app_assoc; reflexivity]);
    cbn [running]; rewrite !running_app;
    rewrite (running_inert t _ (logs_inert _ L1)); cbn [running];
    rewrite !running_app;
    rewrite (running_inert t2 _ (logs_inert _ L2));
    rewrite (running_inert tw _ Hiw); reflexivity.
Qed.

Lemma bootstrap_starts_one_handle_witness :
  exists tr g2,
    executeRun world_watch_trouble flags_confdir =
    (tr, Ret {| server := 1; watcher := None |} g2) /\
    running tr [] = [1] /\
    configFiles g2 =
    ["conf/a.json"; "conf/c.jsonc"; "conf/a.json"; "conf/c.jsonc"].
Proof.
  apply (bootstrap_starts_one_handle world_watch_trouble flags_confdir
           (set_configFiles ["conf/a.json"; "conf/c.jsonc"] flags_confdir)
           [EvLog [LStr "Using confdir from arg:"; LStr "conf"]]
           ["conf/a.json"; "conf/c.jsonc"] 0 1); reflexivity.
Defined.

(** ** Shutdown *)


(** ** ConfigWatcher: closed channels and ignored events *)

(** X14: the loop handles its inbox message by message until a channel is
    closed: while both channels are open what it does on an inbox followed
    by another is what it does on the first followed by what it does on the
    second, and once either channel is closed it does nothing more,
    whatever is still to come. *)
Theorem watcherLoop_stops_when_closed (pre rest : list Received) :
  stillOpen pre = true ->
  watcherLoop (pre ++ rest) = watcherLoop pre ++ watcherLoop rest /\
  watcherLoop (pre ++ RecvEventsClosed :: rest) = watcherLoop pre /\
  watcherLoop (pre ++ RecvErrorsClosed :: rest) = watcherLoop pre.
Proof.
  induction pre as [|m pre IH]; intros H.
  - repeat split.
  - destruct m as [event| |err|]; cbn in H; try discriminate;
      destruct (IH H) as (H1 & H2 & H3); cbn [watcherLoop app].
    + rewrite H1, H2, H3, <- app_assoc. repeat split.
    + rewrite H1, H2, H3. repeat split.
Qed.

Lemma watcherLoop_stops_when_closed_witness :
  watcherLoop
    ([RecvEvent {| Name := "/work/x.json"; Op := 2 |}] ++
     RecvEventsClosed :: [RecvEvent {| Name := "/work/x.json"; Op := 2 |}]) =
  [EvLog [LStr "Config file changed:"; LStr "/work/x.json"]; EvRestart].
Proof.
  apply (watcherLoop_stops_when_closed
           [RecvEvent {| Name := "/work/x.json"; Op := 2 |}]
           [RecvEvent {| Name := "/work/x.json"; Op := 2 |}]).
  reflexivity.
Defined.

(** X15: an event whose operation is made only of remove, rename and chmod
    is ignored: nothing is logged and no restart is requested. *)
Theorem remove_rename_chmod_ignored (event : fsnotify_Event) :
  Z.land (Op event)
         (Z.lor fsnotify_Remove (Z.lor fsnotify_Rename fsnotify_Chmod)) =
  Op event ->
  onEvent event = [].
Proof.
  intros H. unfold onEvent, writeOrCreate.
  rewrite <- H, <- Z.land_assoc.
  replace (Z.land (Z.lor fsnotify_Remove (Z.lor fsnotify_Rename fsnotify_Chmod))
                  (Z.lor fsnotify_Write fsnotify_Create)) with 0%Z
    by reflexivity.
  rewrite Z.land_0_r. reflexivity.
Qed.

Lemma remove_rename_chmod_ignored_witness :
  onEvent {| Name := "/work/x.json";
             Op := Z.lor fsnotify_Remove fsnotify_Chmod |} = [].
Proof.
  apply (remove_rename_chmod_ignored
           {| Name := "/work/x.json";
              Op := Z.lor fsnotify_Remove fsnotify_Chmod |}).
  reflexivity.
Defined.

(** ** ServiceSupervisor: the loop *)

Lemma restart_Exit (w : World) (st : SupervisorState) (g : Globals)
    (t : list Event) (c : Z) :
  getConfigFilePath w true g = (t, Exit c) ->
  restart w st g =
  (EvLog [LStr "[Auto Restart] Restarting Xray due to config change..."] ::
   EvClose (server st) (server_Close w (server st)) ::
   closeLog (server_Close w (server st)) ++ t, Exit c).
Proof.
  intros H. apply startXray_Exit in H.
  unfold restart, log_Println. rewrite !bind_emit. cbn [fst snd].
  assert (Hc : (match server_Close w (server st) with
                | Some err =>
                    emit (EvLog
                      [LStr "[Auto Restart] Error closing server:"; LErr err])
                | None => ret tt
                end) g = (closeLog (server_Close w (server st)), Ret tt g))
    by (destruct (server_Close w (server st)); reflexivity).
  erewrite bind_Ret by exact Hc.
  erewrite bind_Exit by exact H. reflexivity.
Qed.

Lemma closed_nothing_runs (st : SupervisorState) (active : list Server) :
  active = [] \/ active = [server st] ->
  filter (fun x => negb (Nat.eqb x (server st))) active = [].
Proof.
  intros [->| ->]; cbn; [reflexivity|]. rewrite Nat.eqb_refl. reflexivity.
Qed.

(** X16: a configuration directory that cannot be listed when a reload
    comes ends the process with status 1, and by then the old handle has
    been closed: the service is down when the process goes. *)
Theorem reload_with_unlistable_dir_is_fatal
    (w : World) (st : SupervisorState) (g : Globals) (d : string)
    (e : error) :
  resolvedDir w g = Some d ->
  os_ReadDir w d = Err e ->
  exists t,
    restart w st g =
    (EvLog [LStr "[Auto Restart] Restarting Xray due to config change..."] ::
     EvClose (server st) (server_Close w (server st)) ::
     closeLog (server_Close w (server st)) ++ t ++ [EvLog [LErr e]],
     Exit 1) /\
    forallb isLog t = true /\
    running (fst (restart w st g)) [server st] = [].
Proof.
  intros Hd Hl.
  destruct (getConfigFilePath_unlistable w true g d e Hd Hl) as [t E].
  pose proof (getConfigFilePath_logs w true g) as L. rewrite E in L.
  cbn [fst] in L.
  exists t. rewrite (restart_Exit w st g _ _ E). cbn [fst].
  split; [reflexivity|]. split.
  - rewrite forallb_app in L. apply andb_prop in L. exact (proj1 L).
  - cbn [running]. rewrite (closed_nothing_runs st [server st]) by auto.
    apply running_inert. rewrite inert_app.
    rewrite (logs_inert _ (closeLog_logs _)), (logs_inert _ L). reflexivity.
Qed.

Lemma reload_with_unlistable_dir_is_fatal_witness :
  exists t,
    restart world_unreadable {| server := 7; watcher := Some 0 |}
            flags_confdir =
    (EvLog [LStr "[Auto Restart] Restarting Xray due to config change..."] ::
     EvClose 7 None :: [] ++ t ++
     [EvLog [LErr (ExtError "permission denied")]], Exit 1) /\
    forallb isLog t = true /\
    running (fst (restart world_unreadable
                    {| server := 7; watcher := Some 0 |} flags_confdir))
            [7] = [].
Proof.
  apply (reload_with_unlistable_dir_is_fatal world_unreadable
           {| server := 7; watcher := Some 0 |} flags_confdir "conf");
    reflexivity.
Defined.

Lemma restart_running (w : World) (st : SupervisorState) (g : Globals)
    (active : list Server) :
  active = [] \/ active = [server st] ->
  match restart w st g with
  | (tr, Ret st' _) =>
      running tr active = [] \/ running tr active = [server st']
  | (tr, Exit _) => running tr active = []
  end.
Proof.
  intros Ha.
  pose proof (getConfigFilePath_logs w true g) as L.
  destruct (getConfigFilePath w true g) as [t [files g1|c]] eqn:H;
    cbn [fst] in L.
  - rewrite (restart_Ret w st g g1 t files H).
    cbn [running]. rewrite (closed_nothing_runs st active Ha).
    rewrite running_app, (running_inert _ _ (logs_inert _ (closeLog_logs _))).
    rewrite running_app, (running_inert _ _ (logs_inert _ L)).
    rewrite running_app, (running_inert _ _ (buildCalls_inert _ _ _)).
    unfold swapEnd.
    destruct (built w (formatHint w g) files) as [ns|e]; [|left; reflexivity].
    destruct (server_Start w ns); [left|right]; reflexivity.
  - rewrite (restart_Exit w st g t c H).
    cbn [running]. rewrite (closed_nothing_runs st active Ha).
    apply running_inert. rewrite inert_app.
    rewrite (logs_inert _ (closeLog_logs _)), (logs_inert _ L). reflexivity.
Qed.

(** X17: through any sequence of reloads at most one handle runs, and it is
    the one the supervisor holds.  If nothing runs, or only the supervisor's
    handle, when the loop takes its first signal, then after the last
    signal nothing runs or only the handle the supervisor holds then; and
    if the process ends during a reload nothing runs. *)
Theorem at_most_one_handle_runs
    (signals : list World) (st : SupervisorState) (g : Globals)
    (active : list Server) :
  active = [] \/ active = [server st] ->
  match restartLoop signals st g with
  | (tr, Ret st' _) =>
      running tr active = [] \/ running tr active = [server st']
  | (tr, Exit _) => running tr active = []
  end.
Proof.
  revert st g active.
  induction signals as [|w rest IH]; intros st g active Ha.
  - cbn. exact Ha.
  - cbn [restartLoop]. unfold bind.
    pose proof (restart_running w st g active Ha) as Hstep.
    destruct (restart w st g) as [tr [st' g'|c]]; [|exact Hstep].
    specialize (IH st' g' (running tr active) Hstep).
    destruct (restartLoop rest st' g') as [tr2 [st2 g2|c]]; cbn [fst snd];
      rewrite running_app; exact IH.
Qed.

Lemma at_most_one_handle_runs_witness :
  match restartLoop [world_next; world_bad_start; world_conf]
                    {| server := 7; watcher := Some 0 |} flags_file with
  | (tr, Ret st' _) => running tr [7] = [] \/ running tr [7] = [server st']
  | (tr, Exit _) => running tr [7] = []
  end.
Proof.
  apply (at_most_one_handle_runs [world_next; world_bad_start; world_conf]
           {| server := 7; watcher := Some 0 |} flags_file [7]).
  right. reflexivity.
Defined.

(** X18: every reload resolves the source again.  In an iteration whose
    source resolves, [core.LoadConfig] is called on the source resolved in
    that iteration, and the iteration leaves [configFiles] longer by the
    entries of the scan; when that list is not empty it is the source
    loaded. *)
Theorem reload_scans_again
    (w : World) (st : SupervisorState) (g g1 : Globals) (t : list Event)
    (files : Arg) :
  getConfigFilePath w true g = (t, Ret files g1) ->
  (exists st', snd (restart w st g) = Ret st' g1) /\
  In (EvLoadConfig (formatHint w g) files) (fst (restart w st g)) /\
  configFiles g1 = configFiles g ++ scanned w g /\
  (configFiles g1 <> [] -> files = configFiles g1).
Proof.
  intros H. rewrite (restart_Ret w st g g1 t files H). cbn [fst snd].
  pose proof (getConfigFilePath_Ret _ _ _ _ _ _ H) as [Hg Hr].
  split; [eexists; reflexivity|]. split; [|split].
  - right. right. apply in_or_app. right. apply in_or_app. right.
    apply in_or_app. left. unfold buildCalls. left. reflexivity.
  - rewrite Hg. reflexivity.
  - intros Hne. destruct (configFiles g1); [contradiction|exact Hr].
Qed.

Lemma reload_scans_again_witness :
  In (EvLoadConfig "auto"
        ["conf/a.json"; "conf/c.jsonc"; "conf/a.json"; "conf/c.jsonc"])
     (fst (restart world_conf {| server := 1; watcher := Some 0 |}
             (set_configFiles ["conf/a.json"; "conf/c.jsonc"] flags_confdir))).
Proof.
  apply (reload_scans_again world_conf {| server := 1; watcher := Some 0 |}
           (set_configFiles ["conf/a.json"; "conf/c.jsonc"] flags_confdir)
           (set_configFiles
              ["conf/a.json"; "conf/c.jsonc"; "conf/a.json"; "conf/c.jsonc"]
              flags_confdir)
           [EvLog [LStr "Using confdir from arg:"; LStr "conf"]]).
  reflexivity.
Defined.

(** X19: [startXray] on a source that resolves.  When the configuration
    does not load, [core.New] is not called and the error returned wraps
    the loader's error under a message that lists the source; when the
    server cannot be built the error returned wraps the builder's error;
    otherwise the handle built is returned.  In no case is [Start] or
    [Close] called, and the flags are those the locator left. *)
Theorem startXray_builds_or_wraps
    (w : World) (g g1 : Globals) (t : list Event) (files : Arg) :
  getConfigFilePath w true g = (t, Ret files g1) ->
  (forall err,
      core_LoadConfig w (formatHint w g) files = Err err ->
      startXray w g =
      (t ++ [EvLoadConfig (formatHint w g) files],
       Ret (Err (XrayError [OStr "failed to load config files: [";
                            OArgString files; OStr "]"] err)) g1)) /\
  (forall c err,
      core_LoadConfig w (formatHint w g) files = Ok c ->
      core_New w c = Err err ->
      startXray w g =
      (t ++ [EvLoadConfig (formatHint w g) files; EvNew c],
       Ret (Err (XrayError [OStr "failed to create server"] err)) g1)) /\
  (forall c srv,
      core_LoadConfig w (formatHint w g) files = Ok c ->
      core_New w c = Ok srv ->
      startXray w g =
      (t ++ [EvLoadConfig (formatHint w g) files; EvNew c],
       Ret (Ok srv) g1)) /\
  inert (fst (startXray w g)) = true.
Proof.
  intros H.
  pose proof (getConfigFilePath_logs w true g) as L. rewrite H in L.
  cbn [fst] in L.
  rewrite (startXray_Ret _ _ _ _ _ H). unfold built, buildCalls.
  split; [|split; [|split]].
  - intros err Hl. rewrite Hl. reflexivity.
  - intros c err Hl Hn. rewrite Hl, Hn. reflexivity.
  - intros c srv Hl Hn. rewrite Hl, Hn. reflexivity.
  - cbn [fst]. rewrite inert_app, (logs_inert _ L).
    destruct (core_LoadConfig w (formatHint w g) files); reflexivity.
Qed.

Lemma startXray_builds_or_wraps_witness :
  startXray world_bad_config flags_file =
  ([EvLoadConfig "auto" ["x.json"]],
   Ret (Err (XrayError [OStr "failed to load config files: [";
                        OArgString ["x.json"]; OStr "]"]
                       (ExtError "invalid character"))) flags_file) /\
  startXray world_bad_build flags_file =
  ([EvLoadConfig "auto" ["x.json"]; EvNew 0],
   Ret (Err (XrayError [OStr "failed to create server"]
                       (ExtError "unknown protocol"))) flags_file).
Proof.
  split.
  - apply (proj1 (startXray_builds_or_wraps world_bad_config flags_file
                    flags_file [] ["x.json"] eq_refl)).
    reflexivity.
  - apply (proj1 (proj2 (startXray_builds_or_wraps world_bad_build flags_file
                           flags_file [] ["x.json"] eq_refl)) 0);
      reflexivity.
Defined.

(** ** ServiceSupervisor: a reload, whatever the locator does *)




(** ** ConfigLocator: resolving more than once *)

(** C3: the code is not idempotent.  With [-confdir conf], where ["conf"]
    holds [a.json] and [c.jsonc], the first call returns the two entries and
    a second call in the same environment returns each of them twice; the
    bootstrap, which resolves the source once to load it and once more for
    the watcher, leaves each entry twice in [configFiles], and the first
    reload hands each of them three times to [core.LoadConfig]. *)
Theorem directory_entries_pile_up :
  getConfigFilePath world_conf false flags_confdir =
  ([], Ret ["conf/a.json"; "conf/c.jsonc"]
           (set_configFiles ["conf/a.json"; "conf/c.jsonc"] flags_confdir)) /\
  getConfigFilePath world_conf false
    (set_configFiles ["conf/a.json"; "conf/c.jsonc"] flags_confdir) =
  ([], Ret ["conf/a.json"; "conf/c.jsonc"; "conf/a.json"; "conf/c.jsonc"]
           (set_configFiles
              ["conf/a.json"; "conf/c.jsonc"; "conf/a.json"; "conf/c.jsonc"]
              flags_confdir)) /\
  snd (executeRun world_conf flags_confdir) =
  Ret {| server := 1; watcher := Some 0 |}
      (set_configFiles
         ["conf/a.json"; "conf/c.jsonc"; "conf/a.json"; "conf/c.jsonc"]
         flags_confdir) /\
  In (EvLoadConfig "auto"
        ["conf/a.json"; "conf/c.jsonc"; "conf/a.json"; "conf/c.jsonc";
         "conf/a.json"; "conf/c.jsonc"])
     (fst (restart world_conf {| server := 1; watcher := Some 0 |}
             (set_configFiles
                ["conf/a.json"; "conf/c.jsonc"; "conf/a.json"; "conf/c.jsonc"]
                flags_confdir))).
Proof.
  split; [reflexivity|]. split; [reflexivity|]. split; [reflexivity|].
  vm_compute. do 3 right. left. reflexivity.
Qed.
